(** * builder: a factory over native build toolchains

    Shallow embedding of [builder/builder.py] and the properties of its
    builders: which command lines a builder composes, when construction
    fails, what [run_cmd] does with the outcome of a child process and
    what [clean] leaves on disk.

    The program is glue around the Python runtime, so the file first
    fixes a small model of the parts of the runtime the code touches
    ([pathlib], [os.environ], [shutil.rmtree], [subprocess.run], [print],
    [sys.exit]) and then translates the source function by function. *)

From Stdlib Require Import String List ZArith Bool Ascii Lia.
From stdpp Require Import base strings gmap list.

Open Scope string_scope.
Open Scope list_scope.

(** ** Python values *)

(** Truth value of a [str]: the empty string is false. *)
Definition truthy (s : string) : bool :=
  match s with
  | EmptyString => false
  | String _ _ => true
  end.

(** Truth value of the result of [os.environ.get]: [None] and the empty
    string are false. *)
Definition truthy_opt (o : option string) : bool :=
  match o with
  | None => false
  | Some s => truthy s
  end.

(** [build_options or []] for [build_options : Optional[List[str]]]:
    [None] and the empty list are both false, so both give [[]]. *)
Definition or_empty (build_options : option (list string)) : list string :=
  match build_options with
  | None => []
  | Some [] => []
  | Some (x :: l) => x :: l
  end.

(** [sep.join(parts)]. *)
Definition str_join (sep : string) (parts : list string) : string :=
  String.concat sep parts.

(** ** Paths: the POSIX flavour of [pathlib]

    A [Path] keeps the segments it was made from, as CPython's
    [PurePath._raw_paths] does; they are joined and parsed when the path is
    turned into a string. *)

Record Path := mkPath { raw_paths : list string }.

(** [Path(s)]. *)
Definition Path_of (s : string) : Path := mkPath [s].

(** [p / key]. *)
Definition Path_div (p : Path) (key : string) : Path :=
  mkPath (raw_paths p ++ [key]).

Notation "p </> k" := (Path_div p k) (at level 40, left associativity).

Module posixpath.

Definition sep : ascii := "/"%char.

Definition startswith_sep (s : string) : bool :=
  match s with
  | String c _ => Ascii.eqb c sep
  | EmptyString => false
  end.

Fixpoint endswith_sep (s : string) : bool :=
  match s with
  | EmptyString => false
  | String c EmptyString => Ascii.eqb c sep
  | String _ rest => endswith_sep rest
  end.

(** One step of the loop of [posixpath.join]: an absolute segment replaces
    what came before, otherwise the segment is appended with one separator
    unless the path so far is empty or already ends with one. *)
Definition join_step (path b : string) : string :=
  if startswith_sep b then b
  else if negb (truthy path) || endswith_sep path then path +:+ b
  else path +:+ "/" +:+ b.

(** [posixpath.join(a, *p)]. *)
Definition join (a : string) (p : list string) : string :=
  fold_left join_step p a.

(** [posixpath.splitroot(p)] without the (always empty) drive: the root
    and the rest. Exactly two leading slashes are kept as a root of their
    own; one, or three and more, give the root [/]. *)
Definition splitroot (p : string) : string * string :=
  match p with
  | String c1 rest1 =>
      if negb (Ascii.eqb c1 sep) then ("", p)
      else
        match rest1 with
        | String c2 rest2 =>
            if negb (Ascii.eqb c2 sep) then ("/", rest1)
            else
              match rest2 with
              | String c3 _ =>
                  if Ascii.eqb c3 sep then ("/", rest1) else ("//", rest2)
              | EmptyString => ("//", rest2)
              end
        | EmptyString => ("/", rest1)
        end
  | EmptyString => ("", p)
  end.

(** [s.split("/")]. *)
Fixpoint split (s : string) : list string :=
  match s with
  | EmptyString => [""]
  | String c rest =>
      if Ascii.eqb c sep then "" :: split rest
      else
        match split rest with
        | [] => [String c ""]
        | w :: ws => String c w :: ws
        end
  end.

(** The components that survive parsing: not empty and not [.]. *)
Definition keeps (x : string) : bool :=
  truthy x && negb (String.eqb x ".").

(** [PurePath._parse_path]: root and tail. *)
Definition parse_path (path : string) : string * list string :=
  if negb (truthy path) then ("", [])
  else
    let '(root, rel) := splitroot path in
    (root, List.filter keeps (split rel)).

(** [PurePath._load_parts] followed by [PurePath.__str__]. *)
Definition path_str (raw : list string) : string :=
  let path :=
    match raw with
    | [] => ""
    | [p] => p
    | a :: p => join a p
    end in
  let '(root, tail) := parse_path path in
  let s := root +:+ str_join "/" tail in
  if truthy s then s else ".".

(** Where the kernel looks for a path string, as the names to follow from
    the root directory. [..] steps back textually, which is what the
    kernel does when the directory stepped out of exists; a relative path
    starts from [cwd]. *)
Fixpoint walk (stack : list string) (names : list string) : list string :=
  match names with
  | [] => rev stack
  | name :: rest =>
      if String.eqb name ".." then walk (tl stack) rest
      else walk (name :: stack) rest
  end.

Definition locate (cwd : list string) (s : string) : list string :=
  let '(root, tail) := parse_path s in
  if truthy root then walk [] tail else walk (rev cwd) tail.

(** Whether the last component of a path string is [.] or [..], trailing
    separators apart. The kernel follows such a path to a directory but
    refuses to [rmdir] it. *)
Definition ends_in_dot (s : string) : bool :=
  let name := List.last (List.filter truthy (split s)) "" in
  String.eqb name "." || String.eqb name "..".

End posixpath.

(** ** The file tree

    A directory lists its entries by name and is writable or not:
    deleting an entry (a file or an empty directory) needs write access to
    the directory that holds it. Every directory can be listed; symbolic
    links, the other permission bits and whatever else can keep an entry
    from being deleted are left out. *)

#[warnings="-register-all"]
Inductive node :=
| File
| Dir (writable : bool) (entries : list (string * node)).

Fixpoint find_entry (name : string) (es : list (string * node)) : option node :=
  match es with
  | [] => None
  | (n, c) :: rest => if String.eqb n name then Some c else find_entry name rest
  end.

(** The node reached from [n] by following [path], if there is one. *)
Fixpoint lookup_path (n : node) (path : list string) : option node :=
  match path with
  | [] => Some n
  | name :: rest =>
      match n with
      | File => None
      | Dir _ es =>
          match find_entry name es with
          | Some c => lookup_path c rest
          | None => None
          end
      end
  end.

(** Applies [f] to the entry called [name]; [None] deletes the entry. *)
Fixpoint update_entry (name : string) (f : node -> option node)
    (es : list (string * node)) : list (string * node) :=
  match es with
  | [] => []
  | (n, c) :: rest =>
      if String.eqb n name then
        match f c with
        | Some c' => (n, c') :: rest
        | None => rest
        end
      else (n, c) :: update_entry name f rest
  end.

Definition is_nil {A} (l : list A) : bool :=
  match l with
  | [] => true
  | _ :: _ => false
  end.

(** ** Exceptions *)

Inductive exception :=
| EnvironmentError (msg : string)
| FileNotFoundError (msg : string)
| ValueError (msg : string)
| CalledProcessError (returncode : Z) (cmd : list string) (stdout stderr : string)
| SystemExit (code : Z).

(** ** [shutil.rmtree]

    The walk of [rmtree] over the file tree. Every operation that fails
    hands its error to the error callback. With [ignore_errors] the
    callback does nothing and the walk goes on; without, it raises the
    error again, which ends the walk where it stands. Of the errors only
    the reason is kept. *)

Module shutil.

Definition not_found : exception :=
  FileNotFoundError "[Errno 2] No such file or directory".

Definition access_denied : exception :=
  EnvironmentError "[Errno 13] Permission denied".

Definition busy : exception :=
  EnvironmentError "[Errno 16] Device or resource busy".

Definition not_a_directory : exception :=
  EnvironmentError "[Errno 20] Not a directory".

Definition invalid_argument : exception :=
  EnvironmentError "[Errno 22] Invalid argument".

Definition not_empty : exception :=
  EnvironmentError "[Errno 39] Directory not empty".

(** The error callback: the error it raises, if any. *)
Definition onerror (ignore_errors : bool) (e : exception) : option exception :=
  if ignore_errors then None else Some e.

(** The entries of a directory once [name] was dealt with and [kept] is
    what is left of it. *)
Definition keep_entry (name : string) (kept : option node)
    (rest : list (string * node)) : list (string * node) :=
  match kept with
  | Some c => (name, c) :: rest
  | None => rest
  end.

(** The loop over the entries of a directory. [f] tries to delete an
    entry: it says what is left of it and which error was raised. An error
    ends the loop, the entries not yet reached stay as they are. *)
Definition sweep_with (f : node -> option node * option exception)
    : list (string * node) -> list (string * node) * option exception :=
  fix go es :=
    match es with
    | [] => ([], None)
    | (name, c) :: rest =>
        match f c with
        | (kept, Some e) => (keep_entry name kept rest, Some e)
        | (kept, None) =>
            match go rest with
            | (rest', err) => (keep_entry name kept rest', err)
            end
        end
    end.

(** [_rmtree_safe_fd] on one entry of a directory that is writable or
    not: a file is unlinked; a directory is emptied entry by entry and
    then removed with [rmdir], which fails when something is left in
    it. *)
Fixpoint remove (ignore_errors parent_writable : bool) (n : node)
    : option node * option exception :=
  match n with
  | File =>
      if parent_writable then (None, None)
      else (Some File, onerror ignore_errors access_denied)
  | Dir w es =>
      match sweep_with (remove ignore_errors w) es with
      | (kept, Some e) => (Some (Dir w kept), Some e)
      | (kept, None) =>
          if negb (is_nil kept) then
            (Some (Dir w kept), onerror ignore_errors not_empty)
          else if negb parent_writable then
            (Some (Dir w kept), onerror ignore_errors access_denied)
          else (None, None)
      end
  end.

(** The entry [rmtree] was called on. What is not a directory cannot be
    listed and stays. A directory is emptied and then removed with
    [rmdir(path)], which also fails when the path string ends in [.] or
    [..] ([rmdir_ok] is false). *)
Definition remove_top (ignore_errors parent_writable rmdir_ok : bool) (n : node)
    : option node * option exception :=
  match n with
  | File => (Some File, onerror ignore_errors not_a_directory)
  | Dir w es =>
      match sweep_with (remove ignore_errors w) es with
      | (kept, Some e) => (Some (Dir w kept), Some e)
      | (kept, None) =>
          if negb (is_nil kept) then
            (Some (Dir w kept), onerror ignore_errors not_empty)
          else if negb rmdir_ok then
            (Some (Dir w kept), onerror ignore_errors invalid_argument)
          else if negb parent_writable then
            (Some (Dir w kept), onerror ignore_errors access_denied)
          else (None, None)
      end
  end.

(** [rmtree] called on the node at [path] of the tree [n]: the tree
    afterwards and the error raised. A path that names nothing fails at
    [os.lstat]; the root directory can be emptied but not removed. *)
Fixpoint rmtree (ignore_errors rmdir_ok : bool) (n : node) (path : list string)
    {struct path} : node * option exception :=
  match path with
  | [] =>
      match n with
      | File => (n, onerror ignore_errors not_a_directory)
      | Dir w es =>
          match sweep_with (remove ignore_errors w) es with
          | (kept, Some e) => (Dir w kept, Some e)
          | (kept, None) => (Dir w kept, onerror ignore_errors busy)
          end
      end
  | name :: rest =>
      match n with
      | File => (n, onerror ignore_errors not_found)
      | Dir w es =>
          match find_entry name es with
          | None => (n, onerror ignore_errors not_found)
          | Some c =>
              match rest with
              | [] =>
                  match remove_top ignore_errors w rmdir_ok c with
                  | (kept, err) =>
                      (Dir w (update_entry name (fun _ => kept) es), err)
                  end
              | _ :: _ =>
                  match rmtree ignore_errors rmdir_ok c rest with
                  | (c', err) =>
                      (Dir w (update_entry name (fun _ => Some c') es), err)
                  end
              end
          end
      end
  end.

(** *** The walk that ignores every error

    What the walk leaves when the callback does nothing, written without
    the errors. *)

(** The loop over the entries of a directory: [f] tries to delete an
    entry and says what is left of it, [None] when it is gone. *)
Definition sweep (f : node -> option node)
    : list (string * node) -> list (string * node) :=
  fix go es :=
    match es with
    | [] => []
    | (name, c) :: rest =>
        match f c with
        | None => go rest
        | Some c' => (name, c') :: go rest
        end
    end.

(** What is left of an entry the walk went over. *)
Fixpoint discard (parent_writable : bool) (n : node) : option node :=
  match n with
  | File => if parent_writable then None else Some File
  | Dir w es =>
      let left := sweep (discard w) es in
      if parent_writable && is_nil left then None else Some (Dir w left)
  end.

(** What is left of the entry [rmtree] was called on. *)
Definition discard_top (parent_writable : bool) (n : node) : option node :=
  match n with
  | File => Some File
  | Dir _ _ => discard parent_writable n
  end.

(** The tree after [rmtree] was called on the node at [path]. *)
Fixpoint rmtree_at (rmdir_ok : bool) (n : node) (path : list string)
    {struct path} : node :=
  match path with
  | [] => default n (discard false n)
  | [name] =>
      match n with
      | File => n
      | Dir w es => Dir w (update_entry name (discard_top (w && rmdir_ok)) es)
      end
  | name :: rest =>
      match n with
      | File => n
      | Dir w es =>
          Dir w (update_entry name (fun c => Some (rmtree_at rmdir_ok c rest)) es)
      end
  end.

End shutil.

(** ** The host, the world and the effects *)

(** What became of a child process: it ran and exited with a status, its
    two streams captured as text, or the operating system could not start
    it ([subprocess.run] then raises an [OSError], of which
    [EnvironmentError] is the alias the source uses). *)
Inductive child :=
| Exited (returncode : Z) (stdout stderr : string)
| NotStarted (msg : string).

(** What the code asks of the machine it runs on. [spawn issued args] is
    the fate of the child started with [args] after the commands [issued]
    were run. [ends_in_dot] says of a path string whether its last
    component is [.] or [..]. *)
Record Host := {
  sys_platform : string;
  path_str : list string -> string;
  locate : string -> list string;
  ends_in_dot : string -> bool;
  spawn : list (list string) -> list string -> child;
}.

(** A POSIX host ([sys.platform] is [linux], [darwin], ...) with working
    directory [cwd]. *)
Definition posix_host (platform : string) (cwd : list string)
    (spawn : list (list string) -> list string -> child) : Host :=
  {| sys_platform := platform;
     path_str := posixpath.path_str;
     locate := posixpath.locate cwd;
     ends_in_dot := posixpath.ends_in_dot;
     spawn := spawn |}.

(** What the process can observe and change: the environment variables,
    the file tree, the command lines handed to [subprocess.run] so far and
    the lines printed so far (both oldest first). What a child does to the
    file tree is not followed: no statement below relates the tree before
    a build to the tree after it. *)
Record World := {
  environ : gmap string string;
  root : node;
  issued : list (list string);
  printed : list string;
}.

Definition add_issued (args : list string) (w : World) : World :=
  {| environ := environ w; root := root w;
     issued := issued w ++ [args]; printed := printed w |}.

Definition add_printed (line : string) (w : World) : World :=
  {| environ := environ w; root := root w;
     issued := issued w; printed := printed w ++ [line] |}.

Definition set_root (r : node) (w : World) : World :=
  {| environ := environ w; root := r;
     issued := issued w; printed := printed w |}.

Inductive result (A : Type) :=
| Return (a : A)
| Raise (e : exception).

Arguments Return {A} a.
Arguments Raise {A} e.

(** Computations over a state [S] that return or raise; what was done to
    the state before an exception stays done. *)
Definition M (S A : Type) : Type := S -> result A * S.

#[global] Instance M_ret {S} : MRet (M S) :=
  fun A (a : A) s => (Return a, s).

#[global] Instance M_bind {S} : MBind (M S) :=
  fun A B (k : A -> M S B) (m : M S A) s =>
    match m s with
    | (Return a, s') => k a s'
    | (Raise e, s') => (Raise e, s')
    end.

Definition raise {S A} (e : exception) : M S A :=
  fun s => (Raise e, s).

(** [try: body except: handler]. *)
Definition try_except {S A} (body : M S A) (handler : exception -> M S A) : M S A :=
  fun s =>
    match body s with
    | (Return a, s') => (Return a, s')
    | (Raise e, s') => handler e s'
    end.

(** Free functions act on the world; methods also on [self]. *)
Abbreviation Proc := (M World).

Section Runtime.

Context (host : Host).

(** [str(p)]. *)
Definition str (p : Path) : string := path_str host (raw_paths p).

(** [os.environ.get(name)]. *)
Definition os_environ_get (name : string) : Proc (option string) :=
  fun w => (Return (environ w !! name), w).

(** [os.path.exists(s)]: whether the path string names a node of the
    tree (the lookup finds the node or fails as not found). *)
Definition fs_exists (w : World) (s : string) : bool :=
  bool_decide (is_Some (lookup_path (root w) (locate host s))).

(** [p.exists()]. *)
Definition path_exists (w : World) (p : Path) : bool :=
  fs_exists w (str p).

Definition Path_exists (p : Path) : Proc bool :=
  fun w => (Return (path_exists w p), w).

(** [print(line)]. *)
Definition print (line : string) : Proc unit :=
  fun w => (Return tt, add_printed line w).

(** [sys.exit(code)]. *)
Definition sys_exit {A} (code : Z) : Proc A := raise (SystemExit code).

(** [subprocess.run(args, check=True, text=True, encoding='utf-8',
    errors='replace', capture_output=True)], returning the captured
    standard output. The command counts as issued whatever becomes of
    it. *)
Definition subprocess_run (args : list string) : Proc string :=
  fun w =>
    let w' := add_issued args w in
    match spawn host (issued w) args with
    | Exited rc out err =>
        if Z.eqb rc 0 then (Return out, w')
        else (Raise (CalledProcessError rc args out err), w')
    | NotStarted msg => (Raise (EnvironmentError msg), w')
    end.

(** [shutil.rmtree(path, ignore_errors)]. The empty path string names
    nothing: [os.lstat] fails on it. *)
Definition shutil_rmtree (path : string) (ignore_errors : bool) : Proc unit :=
  fun w =>
    if negb (truthy path) then
      match shutil.onerror ignore_errors shutil.not_found with
      | Some e => (Raise e, w)
      | None => (Return tt, w)
      end
    else
      match shutil.rmtree ignore_errors (negb (ends_in_dot host path))
              (root w) (locate host path) with
      | (r, Some e) => (Raise e, set_root r w)
      | (r, None) => (Return tt, set_root r w)
      end.

(** ** [run_cmd] *)

Definition run_cmd (args : list string) : Proc unit :=
  try_except
    (stdout ← subprocess_run args;
     print stdout)
    (fun e =>
       match e with
       | CalledProcessError _ _ _ stderr =>
           print ("命令执行失败: " +:+ str_join " " args);;
           print ("错误输出: " +:+ stderr);;
           sys_exit 1
       | _ => raise e
       end).

End Runtime.

(** ** The builders *)

(** [BuilderType], the selector of the factory. Each member stands for
    one concrete class, and an instance records which class it is of. *)
Inductive BuilderType :=
| NDK
| CMAKE_WINDOWS_VS_MSVC
| CMAKE_WINDOWS_MINGW
| CMAKE_CLANG
| CMAKE_GCC
| CMAKE_ANDROID
| CMAKE_OHOS.

(** An instance of one of the builder classes: its class and its
    attributes. An attribute that was never assigned reads as empty; no
    method reads one before the constructors have assigned it. Where a
    constructor has a parameter named like an attribute, the parameter is
    written with a trailing underscore. *)
Record Builder := {
  kind : BuilderType;
  build_dir : string;
  config_cmd : list string;
  build_cmd : list string;
}.

Definition set_build_dir (v : string) (self : Builder) : Builder :=
  {| kind := kind self; build_dir := v;
     config_cmd := config_cmd self; build_cmd := build_cmd self |}.

Definition set_config_cmd (v : list string) (self : Builder) : Builder :=
  {| kind := kind self; build_dir := build_dir self;
     config_cmd := v; build_cmd := build_cmd self |}.

Definition set_build_cmd (v : list string) (self : Builder) : Builder :=
  {| kind := kind self; build_dir := build_dir self;
     config_cmd := config_cmd self; build_cmd := v |}.

Abbreviation Method := (M (Builder * World)).

(** A call from a method to a free function. *)
Definition call {A} (m : Proc A) : Method A :=
  fun s =>
    match m (snd s) with
    | (r, w') => (r, (fst s, w'))
    end.

Definition get_self : Method Builder :=
  fun s => (Return (fst s), s).

(** [self.attr = v], as the update [f] of the instance. *)
Definition setattr (f : Builder -> Builder) : Method unit :=
  fun s => (Return tt, (f (fst s), snd s)).

(** [cls(...)]: a fresh instance of class [k] is handed to the
    constructor; it is the value of the call unless the constructor
    raises. *)
Definition new (k : BuilderType) (init : Method unit) : Proc Builder :=
  fun w =>
    let blank := {| kind := k; build_dir := ""; config_cmd := []; build_cmd := [] |} in
    match init (blank, w) with
    | (Return _, (self, w')) => (Return self, w')
    | (Raise e, (_, w')) => (Raise e, w')
    end.

Module BuilderImpl.

Definition __init__ (build_dir_ : string) : Method unit :=
  setattr (set_build_dir build_dir_).

Definition clean (host : Host) : Method unit :=
  self ← get_self;
  call (shutil_rmtree host (build_dir self) true).

End BuilderImpl.

Module NdkBuilder.

Definition _get_ndk_build_command (host : Host) (compiler_prefix : string)
    : Method (list string) :=
  let compiler :=
    if String.eqb (sys_platform host) "win32" then "ndk-build.cmd" else "ndk-build" in
  compiler_path ←
    (if truthy compiler_prefix then mret (Path_of compiler_prefix </> compiler)
     else
       android_ndk ← call (os_environ_get "ANDROID_NDK");
       match android_ndk with
       | Some v =>
           if negb (truthy v) then
             raise (EnvironmentError "ANDROID_NDK environment variable is not set")
           else mret (Path_of v </> compiler)
       | None =>
           raise (EnvironmentError "ANDROID_NDK environment variable is not set")
       end);
  found ← call (Path_exists host compiler_path);
  if negb found then
    raise (FileNotFoundError (str host compiler_path +:+ " does not exist"))
  else
    self ← get_self;
    mret [str host compiler_path;
          "V=1";
          "NDK_OUT=" +:+ build_dir self;
          "NDK_LIBS_OUT=" +:+ build_dir self].

Definition __init__ (host : Host) (build_dir_ compiler_prefix : string) : Method unit :=
  BuilderImpl.__init__ build_dir_;;
  cmd ← _get_ndk_build_command host compiler_prefix;
  setattr (set_build_cmd cmd).

Definition build (host : Host) (build_options : option (list string)) : Method unit :=
  self ← get_self;
  let cmd := build_cmd self ++ or_empty build_options in
  call (run_cmd host cmd).

End NdkBuilder.

Module CMakeBuilder.

Definition __init__ (build_dir_ : string) : Method unit :=
  BuilderImpl.__init__ build_dir_;;
  self ← get_self;
  setattr (set_config_cmd ["cmake"; "-B"; build_dir self]);;
  self ← get_self;
  setattr (set_build_cmd ["cmake"; "--build"; build_dir self]).

Definition build (host : Host) (build_options : option (list string)) : Method unit :=
  self ← get_self;
  let config_cmd := config_cmd self ++ or_empty build_options in
  call (run_cmd host config_cmd);;
  self ← get_self;
  call (run_cmd host (build_cmd self)).

(** [self.config_cmd += extra], with [extra] the value of a method call:
    the attribute is read, the call is made, the sum is stored. *)
Definition iadd_config_cmd (extra : Method (list string)) : Method unit :=
  self ← get_self;
  let old := config_cmd self in
  more ← extra;
  setattr (set_config_cmd (old ++ more)).

End CMakeBuilder.

Module CMakeWindowsVsMsvcBuilder.

Definition __init__ (build_dir_ : string) : Method unit :=
  CMakeBuilder.__init__ build_dir_;;
  CMakeBuilder.iadd_config_cmd (mret ["-G"; "Visual Studio 17 2022"]).

End CMakeWindowsVsMsvcBuilder.

Module CMakeWindowsMingwBuilder.

Definition _get_config_cmd (host : Host) (compiler_prefix : string)
    : Method (list string) :=
  let make := "mingw32-make.exe" in
  make_path ←
    (if truthy compiler_prefix then mret (Path_of compiler_prefix </> make)
     else
       mingw ← call (os_environ_get "MinGW");
       match mingw with
       | Some v =>
           if negb (truthy v) then
             raise (EnvironmentError "MinGW environment variable is not set")
           else mret (Path_of v </> "bin" </> make)
       | None =>
           raise (EnvironmentError "MinGW environment variable is not set")
       end);
  found ← call (Path_exists host make_path);
  if negb found then
    raise (FileNotFoundError (str host make_path +:+ " does not exist"))
  else
    mret ["-G";
          "MinGW Makefiles";
          "-DCMAKE_MAKE_PROGRAM=" +:+ str host make_path].

Definition __init__ (host : Host) (build_dir_ compiler_prefix : string) : Method unit :=
  CMakeBuilder.__init__ build_dir_;;
  CMakeBuilder.iadd_config_cmd (_get_config_cmd host compiler_prefix).

End CMakeWindowsMingwBuilder.

Module CMakeClangBuilder.

Definition _get_config_cmd (host : Host) (compiler_prefix : string)
    : Method (list string) :=
  let compiler_c :=
    if String.eqb (sys_platform host) "win32" then "clang.exe" else "clang" in
  let compiler_cpp :=
    if String.eqb (sys_platform host) "win32" then "clang++.exe" else "clang++" in
  paths ←
    (if truthy compiler_prefix then
       mret (Path_of (compiler_prefix +:+ compiler_c),
             Path_of (compiler_prefix +:+ compiler_cpp))
     else
       llvm ← call (os_environ_get "LLVM");
       match llvm with
       | Some v =>
           if negb (truthy v) then
             raise (EnvironmentError "LLVM environment variable is not set")
           else mret (Path_of v </> "bin" </> compiler_c,
                      Path_of v </> "bin" </> compiler_cpp)
       | None =>
           raise (EnvironmentError "LLVM environment variable is not set")
       end);
  let compiler_c_path := fst paths in
  let compiler_cpp_path := snd paths in
  found_c ← call (Path_exists host compiler_c_path);
  if negb found_c then
    raise (FileNotFoundError (str host compiler_c_path +:+ " does not exist"))
  else
    found_cpp ← call (Path_exists host compiler_cpp_path);
    if negb found_cpp then
      raise (FileNotFoundError (str host compiler_cpp_path +:+ " does not exist"))
    else
      mret ["-G";
            "Ninja";
            "-DCMAKE_C_COMPILER:FILEPATH=" +:+ str host compiler_c_path;
            "-DCMAKE_CXX_COMPILER:FILEPATH=" +:+ str host compiler_cpp_path].

Definition __init__ (host : Host) (build_dir_ compiler_prefix : string) : Method unit :=
  CMakeBuilder.__init__ build_dir_;;
  CMakeBuilder.iadd_config_cmd (_get_config_cmd host compiler_prefix).

End CMakeClangBuilder.

Module CMakeGccBuilder.

Definition _get_config_cmd (host : Host) (compiler_prefix : string)
    : Method (list string) :=
  let compiler_c := "gcc" in
  let compiler_cpp := "g++" in
  paths ←
    (if truthy compiler_prefix then
       mret (Path_of (compiler_prefix +:+ compiler_c),
             Path_of (compiler_prefix +:+ compiler_cpp))
     else
       gcc ← call (os_environ_get "GCC");
       match gcc with
       | Some v =>
           if negb (truthy v) then
             raise (EnvironmentError "GCC environment variable is not set")
           else mret (Path_of v </> "bin" </> compiler_c,
                      Path_of v </> "bin" </> compiler_cpp)
       | None =>
           raise (EnvironmentError "GCC environment variable is not set")
       end);
  let compiler_c_path := fst paths in
  let compiler_cpp_path := snd paths in
  found_c ← call (Path_exists host compiler_c_path);
  if negb found_c then
    raise (FileNotFoundError (str host compiler_c_path +:+ " does not exist"))
  else
    found_cpp ← call (Path_exists host compiler_cpp_path);
    if negb found_cpp then
      raise (FileNotFoundError (str host compiler_cpp_path +:+ " does not exist"))
    else
      mret ["-G";
            "Ninja";
            "-DCMAKE_C_COMPILER:FILEPATH=" +:+ str host compiler_c_path;
            "-DCMAKE_CXX_COMPILER:FILEPATH=" +:+ str host compiler_cpp_path].

Definition __init__ (host : Host) (build_dir_ compiler_prefix : string) : Method unit :=
  CMakeBuilder.__init__ build_dir_;;
  CMakeBuilder.iadd_config_cmd (_get_config_cmd host compiler_prefix).

End CMakeGccBuilder.

Module CMakeAndroidBuilder.

Definition _get_config_cmd (host : Host) (compiler_prefix : string)
    : Method (list string) :=
  cmake_toolchain ←
    (if truthy compiler_prefix then
       mret (Path_of compiler_prefix </> "build" </> "cmake" </> "android.toolchain.cmake")
     else
       android_ndk ← call (os_environ_get "ANDROID_NDK");
       match android_ndk with
       | Some v =>
           if negb (truthy v) then
             raise (EnvironmentError "ANDROID_NDK environment variable is not set")
           else mret (Path_of v </> "build" </> "cmake" </> "android.toolchain.cmake")
       | None =>
           raise (EnvironmentError "ANDROID_NDK environment variable is not set")
       end);
  found ← call (Path_exists host cmake_toolchain);
  if negb found then
    raise (FileNotFoundError (str host cmake_toolchain +:+ " does not exist"))
  else
    mret ["-G";
          "Ninja";
          "-DCMAKE_TOOLCHAIN_FILE=" +:+ str host cmake_toolchain;
          "-DANDROID_ABI=arm64-v8a";
          "-DANDROID_STL=c++_shared";
          "-DANDROID_PLATFORM=android-31"].

Definition __init__ (host : Host) (build_dir_ compiler_prefix : string) : Method unit :=
  CMakeBuilder.__init__ build_dir_;;
  CMakeBuilder.iadd_config_cmd (_get_config_cmd host compiler_prefix).

End CMakeAndroidBuilder.

Module CMakeOhosBuilder.

Definition _get_config_cmd (host : Host) (compiler_prefix : string)
    : Method (list string) :=
  cmake_toolchain ←
    (if truthy compiler_prefix then
       mret (Path_of compiler_prefix </> "build" </> "cmake" </> "ohos.toolchain.cmake")
     else
       ohos_sdk ← call (os_environ_get "OHOS_SDK");
       match ohos_sdk with
       | Some v =>
           if negb (truthy v) then
             raise (EnvironmentError "OHOS_SDK environment variable is not set")
           else mret (Path_of v </> "build" </> "cmake" </> "ohos.toolchain.cmake")
       | None =>
           raise (EnvironmentError "OHOS_SDK environment variable is not set")
       end);
  found ← call (Path_exists host cmake_toolchain);
  if negb found then
    raise (FileNotFoundError (str host cmake_toolchain +:+ " does not exist"))
  else
    mret ["-G";
          "Ninja";
          "-DCMAKE_TOOLCHAIN_FILE=" +:+ str host cmake_toolchain;
          "-DANDROID_ABI=arm64-v8a";
          "-DANDROID_STL=c++_shared";
          "-DANDROID_PLATFORM=OHOS"].

Definition __init__ (host : Host) (build_dir_ compiler_prefix : string) : Method unit :=
  CMakeBuilder.__init__ build_dir_;;
  CMakeBuilder.iadd_config_cmd (_get_config_cmd host compiler_prefix).

End CMakeOhosBuilder.

(** ** Calling a builder *)

(** [b.build(build_options)]: the method of the class of the instance.
    [NdkBuilder] has its own; the CMake classes inherit
    [CMakeBuilder.build]. *)
Definition build (host : Host) (build_options : option (list string)) : Method unit :=
  self ← get_self;
  match kind self with
  | NDK => NdkBuilder.build host build_options
  | _ => CMakeBuilder.build host build_options
  end.

(** [b.clean()]: every class inherits [BuilderImpl.clean]. *)
Definition clean (host : Host) : Method unit :=
  BuilderImpl.clean host.

(** ** The factory *)

(** What a caller can pass as [builder_type]: a member of [BuilderType],
    or any other Python value, which compares unequal to every member and
    of which only the text that the error message shows matters. *)
Inductive selector :=
| Member (t : BuilderType)
| Foreign (shown : string).

Module BuilderFactory.

(** [compiler_prefix] defaults to the empty string. *)
Definition create (host : Host) (builder_type : selector)
    (build_dir_ compiler_prefix : string) : Proc Builder :=
  match builder_type with
  | Member NDK =>
      new NDK (NdkBuilder.__init__ host build_dir_ compiler_prefix)
  | Member CMAKE_WINDOWS_VS_MSVC =>
      new CMAKE_WINDOWS_VS_MSVC (CMakeWindowsVsMsvcBuilder.__init__ build_dir_)
  | Member CMAKE_WINDOWS_MINGW =>
      new CMAKE_WINDOWS_MINGW (CMakeWindowsMingwBuilder.__init__ host build_dir_ compiler_prefix)
  | Member CMAKE_CLANG =>
      new CMAKE_CLANG (CMakeClangBuilder.__init__ host build_dir_ compiler_prefix)
  | Member CMAKE_GCC =>
      new CMAKE_GCC (CMakeGccBuilder.__init__ host build_dir_ compiler_prefix)
  | Member CMAKE_ANDROID =>
      new CMAKE_ANDROID (CMakeAndroidBuilder.__init__ host build_dir_ compiler_prefix)
  | Member CMAKE_OHOS =>
      new CMAKE_OHOS (CMakeOhosBuilder.__init__ host build_dir_ compiler_prefix)
  | Foreign shown =>
      raise (ValueError ("Invalid builder type: " +:+ shown))
  end.

End BuilderFactory.

(** ** Vocabulary of the statements *)

(** *** What a builder composes *)

(** The two lines [run_cmd] prints about a child that failed. *)
Definition failed_line (args : list string) : string :=
  "命令执行失败: " +:+ str_join " " args.

Definition stderr_line (stderr : string) : string :=
  "错误输出: " +:+ stderr.

Definition succeeded (c : child) : bool :=
  match c with
  | Exited rc _ _ => Z.eqb rc 0
  | NotStarted _ => false
  end.

(** The case table of [run_cmd]. *)
Definition run_cmd_outcome (host : Host) (args : list string) (w : World)
    : result unit * World :=
  match spawn host (issued w) args with
  | Exited rc out err =>
      if Z.eqb rc 0 then (Return tt, add_printed out (add_issued args w))
      else (Raise (SystemExit 1),
            add_printed (stderr_line err)
              (add_printed (failed_line args) (add_issued args w)))
  | NotStarted msg => (Raise (EnvironmentError msg), add_issued args w)
  end.

(** The status the process ends with when the exception reaches the top
    level. *)
Definition exit_status (e : exception) : Z :=
  match e with
  | SystemExit code => code
  | _ => 1
  end.

(** The command lines one [build] call is made of. *)
Definition command_lines (b : Builder) (build_options : option (list string))
    : list (list string) :=
  match kind b with
  | NDK => [build_cmd b ++ or_empty build_options]
  | _ => [config_cmd b ++ or_empty build_options; build_cmd b]
  end.

(** [n] calls of [build] in a row, as long as none raises. *)
Fixpoint repeat_build (host : Host) (n : nat) (build_options : option (list string))
    : Method unit :=
  match n with
  | O => mret tt
  | S k => build host build_options;; repeat_build host k build_options
  end.

(** *** Where a variant looks for its toolchain *)

Definition ndk_build_name (host : Host) : string :=
  if String.eqb (sys_platform host) "win32" then "ndk-build.cmd" else "ndk-build".

Definition clang_name (host : Host) : string :=
  if String.eqb (sys_platform host) "win32" then "clang.exe" else "clang".

Definition clangpp_name (host : Host) : string :=
  if String.eqb (sys_platform host) "win32" then "clang++.exe" else "clang++".

(** The environment variable a variant reads when it is given no prefix. *)
Definition env_var (t : BuilderType) : option string :=
  match t with
  | NDK => Some "ANDROID_NDK"
  | CMAKE_WINDOWS_VS_MSVC => None
  | CMAKE_WINDOWS_MINGW => Some "MinGW"
  | CMAKE_CLANG => Some "LLVM"
  | CMAKE_GCC => Some "GCC"
  | CMAKE_ANDROID => Some "ANDROID_NDK"
  | CMAKE_OHOS => Some "OHOS_SDK"
  end.

(** The paths a variant derives from a prefix. *)
Definition prefix_paths (host : Host) (t : BuilderType) (prefix : string) : list Path :=
  match t with
  | NDK => [Path_of prefix </> ndk_build_name host]
  | CMAKE_WINDOWS_VS_MSVC => []
  | CMAKE_WINDOWS_MINGW => [Path_of prefix </> "mingw32-make.exe"]
  | CMAKE_CLANG =>
      [Path_of (prefix +:+ clang_name host); Path_of (prefix +:+ clangpp_name host)]
  | CMAKE_GCC => [Path_of (prefix +:+ "gcc"); Path_of (prefix +:+ "g++")]
  | CMAKE_ANDROID =>
      [Path_of prefix </> "build" </> "cmake" </> "android.toolchain.cmake"]
  | CMAKE_OHOS =>
      [Path_of prefix </> "build" </> "cmake" </> "ohos.toolchain.cmake"]
  end.

(** The paths a variant derives from the value [v] of its variable. *)
Definition env_paths (host : Host) (t : BuilderType) (v : string) : list Path :=
  match t with
  | NDK => [Path_of v </> ndk_build_name host]
  | CMAKE_WINDOWS_VS_MSVC => []
  | CMAKE_WINDOWS_MINGW => [Path_of v </> "bin" </> "mingw32-make.exe"]
  | CMAKE_CLANG =>
      [Path_of v </> "bin" </> clang_name host; Path_of v </> "bin" </> clangpp_name host]
  | CMAKE_GCC => [Path_of v </> "bin" </> "gcc"; Path_of v </> "bin" </> "g++"]
  | CMAKE_ANDROID =>
      [Path_of v </> "build" </> "cmake" </> "android.toolchain.cmake"]
  | CMAKE_OHOS =>
      [Path_of v </> "build" </> "cmake" </> "ohos.toolchain.cmake"]
  end.

Definition variable_not_set (var : string) : exception :=
  EnvironmentError (var +:+ " environment variable is not set").

Definition does_not_exist (host : Host) (p : Path) : exception :=
  FileNotFoundError (str host p +:+ " does not exist").

(** The candidate paths of a variant, or the error of the lookup. *)
Definition resolve (host : Host) (t : BuilderType) (prefix : string)
    (env : gmap string string) : result (list Path) :=
  match env_var t with
  | None => Return []
  | Some var =>
      if truthy prefix then Return (prefix_paths host t prefix)
      else
        match env !! var with
        | Some v =>
            if truthy v then Return (env_paths host t v)
            else Raise (variable_not_set var)
        | None => Raise (variable_not_set var)
        end
  end.

(** The first candidate that is not on disk. *)
Definition first_missing (host : Host) (w : World) (paths : list Path) : option Path :=
  List.find (fun p => negb (path_exists host w p)) paths.

(** What a CMake variant adds to [cmake -B <dir>], given its toolchain
    paths as text. *)
Definition flags (t : BuilderType) (tools : list string) : list string :=
  match t with
  | NDK => []
  | CMAKE_WINDOWS_VS_MSVC => ["-G"; "Visual Studio 17 2022"]
  | CMAKE_WINDOWS_MINGW =>
      ["-G"; "MinGW Makefiles"] ++ map (String.append "-DCMAKE_MAKE_PROGRAM=") tools
  | CMAKE_CLANG | CMAKE_GCC =>
      ["-G"; "Ninja"] ++
      zip_with String.append
        ["-DCMAKE_C_COMPILER:FILEPATH="; "-DCMAKE_CXX_COMPILER:FILEPATH="] tools
  | CMAKE_ANDROID =>
      ["-G"; "Ninja"] ++ map (String.append "-DCMAKE_TOOLCHAIN_FILE=") tools ++
      ["-DANDROID_ABI=arm64-v8a"; "-DANDROID_STL=c++_shared";
       "-DANDROID_PLATFORM=android-31"]
  | CMAKE_OHOS =>
      ["-G"; "Ninja"] ++ map (String.append "-DCMAKE_TOOLCHAIN_FILE=") tools ++
      ["-DANDROID_ABI=arm64-v8a"; "-DANDROID_STL=c++_shared";
       "-DANDROID_PLATFORM=OHOS"]
  end.

(** The instance a successful construction yields. *)
Definition built (t : BuilderType) (dir : string) (tools : list string) : Builder :=
  match t with
  | NDK =>
      {| kind := NDK; build_dir := dir; config_cmd := [];
         build_cmd := tools ++ ["V=1"; "NDK_OUT=" +:+ dir; "NDK_LIBS_OUT=" +:+ dir] |}
  | _ =>
      {| kind := t; build_dir := dir;
         config_cmd := ["cmake"; "-B"; dir] ++ flags t tools;
         build_cmd := ["cmake"; "--build"; dir] |}
  end.

(** Construction in three steps: resolve, check, assemble. *)
Definition construction (host : Host) (t : BuilderType) (dir prefix : string)
    (w : World) : result Builder * World :=
  match resolve host t prefix (environ w) with
  | Raise e => (Raise e, w)
  | Return paths =>
      match first_missing host w paths with
      | Some p => (Raise (does_not_exist host p), w)
      | None => (Return (built t dir (map (str host) paths)), w)
      end
  end.

(** The constructor the factory calls for a member of [BuilderType]. *)
Definition constructor_of (host : Host) (t : BuilderType)
    (build_dir_ compiler_prefix : string) : Method unit :=
  match t with
  | NDK => NdkBuilder.__init__ host build_dir_ compiler_prefix
  | CMAKE_WINDOWS_VS_MSVC => CMakeWindowsVsMsvcBuilder.__init__ build_dir_
  | CMAKE_WINDOWS_MINGW => CMakeWindowsMingwBuilder.__init__ host build_dir_ compiler_prefix
  | CMAKE_CLANG => CMakeClangBuilder.__init__ host build_dir_ compiler_prefix
  | CMAKE_GCC => CMakeGccBuilder.__init__ host build_dir_ compiler_prefix
  | CMAKE_ANDROID => CMakeAndroidBuilder.__init__ host build_dir_ compiler_prefix
  | CMAKE_OHOS => CMakeOhosBuilder.__init__ host build_dir_ compiler_prefix
  end.

(** *** The statements as the specification words them *)

(** The fixed relative layout of a variant below its prefix. *)
Definition layout (host : Host) (t : BuilderType) : list (list string) :=
  match t with
  | NDK => [[ndk_build_name host]]
  | CMAKE_WINDOWS_VS_MSVC => []
  | CMAKE_WINDOWS_MINGW => [["mingw32-make.exe"]]
  | CMAKE_CLANG => [[clang_name host]; [clangpp_name host]]
  | CMAKE_GCC => [["gcc"]; ["g++"]]
  | CMAKE_ANDROID => [["build"; "cmake"; "android.toolchain.cmake"]]
  | CMAKE_OHOS => [["build"; "cmake"; "ohos.toolchain.cmake"]]
  end.

(** The path join of a prefix with each entry of the layout. *)
Definition joined_paths (host : Host) (t : BuilderType) (prefix : string) : list Path :=
  map (fun rel => fold_left Path_div rel (Path_of prefix)) (layout host t).

(** A prefixed construction that looks for its toolchain at [paths]. *)
Definition constructs_from (host : Host) (t : BuilderType) (dir prefix : string)
    (w : World) (paths : list Path) : Prop :=
  BuilderFactory.create host (Member t) dir prefix w =
  match first_missing host w paths with
  | Some p => (Raise (does_not_exist host p), w)
  | None => (Return (built t dir (map (str host) paths)), w)
  end.

(** A CMake build that issues the configure and the build command. *)
Definition issues_both (host : Host) (b : Builder)
    (build_options : option (list string)) (w : World) : Prop :=
  issued (snd (snd (build host build_options (b, w)))) =
  issued w ++ [config_cmd b ++ or_empty build_options; build_cmd b].

(** A runner that reports every failure, of the child or of its launch,
    and ends the process. *)
Definition reports_failure (host : Host) (args : list string) (w : World) : Prop :=
  succeeded (spawn host (issued w) args) = false ->
  exists e err,
    fst (run_cmd host args w) = Raise e /\
    exit_status e <> 0%Z /\
    printed (snd (run_cmd host args w)) =
    printed w ++ [failed_line args; stderr_line err].


(** *** Hosts and worlds of the examples *)

Definition all_succeed : list (list string) -> list string -> child :=
  fun _ _ => Exited 0 "" "".

Definition all_fail : list (list string) -> list string -> child :=
  fun _ _ => Exited 1 "" "toolchain error".

Definition none_starts : list (list string) -> list string -> child :=
  fun _ _ => NotStarted "[Errno 2] No such file or directory: 'cmake'".

Definition linux (spawn : list (list string) -> list string -> child) : Host :=
  posix_host "linux" [] spawn.

Definition bare_world : World :=
  {| environ := ∅; root := Dir true []; issued := []; printed := [] |}.

(** [ANDROID_NDK=/opt/ndk] with [/opt/ndk/ndk-build] in place. *)
Definition ndk_world : World :=
  {| environ := <["ANDROID_NDK" := "/opt/ndk"]> ∅;
     root := Dir true [("opt", Dir true [("ndk", Dir true [("ndk-build", File)])])];
     issued := []; printed := [] |}.

(** [/usr/bin/clang] and [/usr/bin/clang++] in place. *)
Definition clang_world : World :=
  {| environ := ∅;
     root := Dir true
       [("usr", Dir true [("bin", Dir true [("clang", File); ("clang++", File)])])];
     issued := []; printed := [] |}.

(** [/tmp/out] is a directory the user may not write to, with a file in
    it. *)
Definition readonly_world : World :=
  {| environ := ∅;
     root := Dir true
       [("tmp", Dir true [("out", Dir false [("CMakeCache.txt", File)])])];
     issued := []; printed := [] |}.

(** [/tmp/out] is a writable tree. *)
Definition writable_world : World :=
  {| environ := ∅;
     root := Dir true
       [("tmp", Dir true
          [("out", Dir true
             [("CMakeCache.txt", File); ("CMakeFiles", Dir true [("a.o", File)])])])];
     issued := []; printed := [] |}.

Definition msvc_builder : Builder :=
  built CMAKE_WINDOWS_VS_MSVC "/tmp/out" [].

(** *** Vocabulary of the further properties *)

(** The generator a CMake variant asks for with [-G]. *)
Definition generator (t : BuilderType) : string :=
  match t with
  | CMAKE_WINDOWS_VS_MSVC => "Visual Studio 17 2022"
  | CMAKE_WINDOWS_MINGW => "MinGW Makefiles"
  | _ => "Ninja"
  end.

Definition stdout_of (c : child) : string :=
  match c with
  | Exited _ out _ => out
  | NotStarted _ => ""
  end.

(** Every child of a row of commands exits with status zero, each one
    started after the ones before it. *)
Fixpoint row_succeeds (host : Host) (issued : list (list string))
    (lines : list (list string)) : bool :=
  match lines with
  | [] => true
  | l :: ls => succeeded (spawn host issued l) && row_succeeds host (issued ++ [l]) ls
  end.

(** What the children of a row of commands write to their standard
    output. *)
Fixpoint row_outputs (host : Host) (issued : list (list string))
    (lines : list (list string)) : list string :=
  match lines with
  | [] => []
  | l :: ls => stdout_of (spawn host issued l) :: row_outputs host (issued ++ [l]) ls
  end.

(** One [build] call for each element of [calls], in this order, as
    long as none raises. *)
Fixpoint build_each (host : Host) (calls : list (option (list string)))
    : Method unit :=
  match calls with
  | [] => mret tt
  | build_options :: rest => build host build_options;; build_each host rest
  end.

(** The configure step succeeds, every later command fails. *)
Definition second_fails : list (list string) -> list string -> child :=
  fun issued _ =>
    match issued with
    | [] => Exited 0 "-- Configuring done" ""
    | _ :: _ => Exited 2 "" "ninja: build stopped"
    end.

(** No directory of the tree lists a name twice. *)
Fixpoint unique_names (n : node) : bool :=
  match n with
  | File => true
  | Dir _ es =>
      bool_decide (NoDup es.*1) && forallb (fun e => unique_names (snd e)) es
  end.

(** ** Proofs *)

(** *** The runner *)

Lemma run_cmd_unfold host args w :
  run_cmd host args w = run_cmd_outcome host args w.
Proof.
  unfold run_cmd, run_cmd_outcome, try_except, subprocess_run, mbind, M_bind.
  cbn beta.
  destruct (spawn host (issued w) args) as [rc out err | msg]; [|reflexivity].
  destruct (Z.eqb rc 0); reflexivity.
Qed.

Lemma call_unfold {A} (m : Proc A) (b : Builder) (w : World) :
  call m (b, w) = (fst (m w), (b, snd (m w))).
Proof. unfold call. simpl. destruct (m w); reflexivity. Qed.

(** Whatever becomes of the child, the command is issued, and it is the
    only one. *)
Lemma run_cmd_issued host args w :
  issued (snd (run_cmd host args w)) = issued w ++ [args].
Proof.
  rewrite run_cmd_unfold. unfold run_cmd_outcome.
  destruct (spawn host (issued w) args) as [rc out err | msg]; [|reflexivity].
  destruct (Z.eqb rc 0); reflexivity.
Qed.

Lemma run_cmd_returns host args w :
  fst (run_cmd host args w) = Return tt <-> succeeded (spawn host (issued w) args) = true.
Proof.
  rewrite run_cmd_unfold. unfold run_cmd_outcome, succeeded.
  destruct (spawn host (issued w) args) as [rc out err | msg]; [|split; discriminate].
  destruct (Z.eqb rc 0); split; (reflexivity || discriminate).
Qed.

(** C4, as amended. A child that exits with status zero has its output
    printed and [run_cmd] returns. A child that exits with another status
    has the command line and its error stream printed, and [run_cmd] ends
    the process with status 1. A child that could not be started makes
    [run_cmd] print nothing: the error of the launch goes on to the
    caller. *)
Theorem run_cmd_cases host args w :
  (forall out err,
     spawn host (issued w) args = Exited 0 out err ->
     run_cmd host args w = (Return tt, add_printed out (add_issued args w))) /\
  (forall rc out err,
     spawn host (issued w) args = Exited rc out err -> rc <> 0%Z ->
     run_cmd host args w =
     (Raise (SystemExit 1),
      add_printed (stderr_line err)
        (add_printed (failed_line args) (add_issued args w)))) /\
  (forall msg,
     spawn host (issued w) args = NotStarted msg ->
     run_cmd host args w = (Raise (EnvironmentError msg), add_issued args w)).
Proof.
  rewrite run_cmd_unfold. unfold run_cmd_outcome.
  split; [|split].
  - intros out err ->. reflexivity.
  - intros rc out err -> Hrc. apply Z.eqb_neq in Hrc. rewrite Hrc. reflexivity.
  - intros msg ->. reflexivity.
Qed.

Lemma run_cmd_cases_witness :
  spawn (linux all_fail) [] ["cmake"; "--build"; "/tmp/out"] = Exited 1 "" "toolchain error" /\
  1%Z <> 0%Z /\
  run_cmd (linux all_fail) ["cmake"; "--build"; "/tmp/out"] bare_world =
  (Raise (SystemExit 1),
   {| environ := ∅; root := Dir true [];
      issued := [["cmake"; "--build"; "/tmp/out"]];
      printed := ["命令执行失败: cmake --build /tmp/out"; "错误输出: toolchain error"] |}).
Proof.
  split; [reflexivity|]. split; [discriminate|].
  apply (proj1 (proj2 (run_cmd_cases (linux all_fail) ["cmake"; "--build"; "/tmp/out"]
                         bare_world)) 1%Z "" "toolchain error");
    [reflexivity | discriminate].
Defined.

(** C4 as stated fails: when the child cannot be started, [run_cmd]
    prints neither the command line nor an error stream. *)
Lemma run_cmd_launch_failure_not_reported :
  succeeded (spawn (linux none_starts) (issued bare_world) ["cmake"]) = false /\
  run_cmd (linux none_starts) ["cmake"] bare_world =
  (Raise (EnvironmentError "[Errno 2] No such file or directory: 'cmake'"),
   add_issued ["cmake"] bare_world) /\
  ~ reports_failure (linux none_starts) ["cmake"] bare_world.
Proof.
  split; [reflexivity|]. split; [reflexivity|].
  intros H. destruct (H eq_refl) as (e & err & _ & _ & Hp).
  vm_compute in Hp. discriminate Hp.
Qed.

(** *** Construction *)

Ltac step_monad :=
  cbv beta iota zeta delta
    [mbind M_bind mret M_ret raise call get_self setattr os_environ_get
     Path_exists new fst snd List.find List.map
     kind build_dir config_cmd build_cmd set_build_dir set_config_cmd set_build_cmd
     BuilderImpl.__init__ CMakeBuilder.__init__ CMakeBuilder.iadd_config_cmd
     NdkBuilder.__init__ NdkBuilder._get_ndk_build_command
     CMakeWindowsVsMsvcBuilder.__init__
     CMakeWindowsMingwBuilder.__init__ CMakeWindowsMingwBuilder._get_config_cmd
     CMakeClangBuilder.__init__ CMakeClangBuilder._get_config_cmd
     CMakeGccBuilder.__init__ CMakeGccBuilder._get_config_cmd
     CMakeAndroidBuilder.__init__ CMakeAndroidBuilder._get_config_cmd
     CMakeOhosBuilder.__init__ CMakeOhosBuilder._get_config_cmd
     BuilderFactory.create].

Ltac split_cases w :=
  repeat match goal with
  | |- context [truthy ?s] => destruct (truthy s); cbn [negb]
  | |- context [environ w !! ?k] => destruct (environ w !! k); cbn [negb]
  | |- context [path_exists ?h w ?p] => destruct (path_exists h w p); cbn [negb]
  end.

(** Every constructor resolves its candidate paths, checks them in order
    and assembles its command lines, without touching the world. *)
Lemma create_unfold host t dir prefix w :
  BuilderFactory.create host (Member t) dir prefix w = construction host t dir prefix w.
Proof.
  unfold construction, resolve, first_missing, does_not_exist, variable_not_set,
    env_var, prefix_paths, env_paths, ndk_build_name, clang_name, clangpp_name.
  destruct t; step_monad; split_cases w; reflexivity.
Qed.

(** *** The builds *)

Lemma ndk_build_unfold host opts b w :
  NdkBuilder.build host opts (b, w) =
  (fst (run_cmd host (build_cmd b ++ or_empty opts) w),
   (b, snd (run_cmd host (build_cmd b ++ or_empty opts) w))).
Proof.
  unfold NdkBuilder.build, mbind, M_bind, get_self. cbn [fst snd].
  apply call_unfold.
Qed.

Lemma cmake_build_unfold host opts b w :
  CMakeBuilder.build host opts (b, w) =
  let cfg := config_cmd b ++ or_empty opts in
  let w1 := snd (run_cmd host cfg w) in
  if succeeded (spawn host (issued w) cfg) then
    (fst (run_cmd host (build_cmd b) w1), (b, snd (run_cmd host (build_cmd b) w1)))
  else (fst (run_cmd host cfg w), (b, w1)).
Proof.
  unfold CMakeBuilder.build, mbind, M_bind, get_self. cbn [fst snd].
  rewrite call_unfold. cbn zeta.
  destruct (succeeded _) eqn:Hs.
  - apply run_cmd_returns in Hs. rewrite Hs. cbn [fst snd]. apply call_unfold.
  - destruct (fst (run_cmd host _ w)) as [[]|e] eqn:Hr; [|reflexivity].
    apply run_cmd_returns in Hr. congruence.
Qed.

Lemma build_unfold host opts b w :
  build host opts (b, w) =
  match kind b with
  | NDK => NdkBuilder.build host opts (b, w)
  | _ => CMakeBuilder.build host opts (b, w)
  end.
Proof.
  unfold build, mbind, M_bind, get_self. cbn [fst snd].
  destruct (kind b); reflexivity.
Qed.

Lemma build_cmake host opts b w :
  kind b <> NDK -> build host opts (b, w) = CMakeBuilder.build host opts (b, w).
Proof. intros H. rewrite build_unfold. destruct (kind b); congruence. Qed.

Lemma build_ndk host opts b w :
  kind b = NDK -> build host opts (b, w) = NdkBuilder.build host opts (b, w).
Proof. intros H. rewrite build_unfold, H. reflexivity. Qed.

(** C1, as amended. A CMake builder first issues its configure command
    with the options at the end. When that child exits with status zero
    it then issues its build command, without the options, so that the
    call issues exactly these two commands in this order; otherwise the
    call ends with the exception of the runner and the configure command
    is the only one issued. *)
Theorem cmake_build_commands host b opts w :
  kind b <> NDK ->
  let cfg := config_cmd b ++ or_empty opts in
  let after := build host opts (b, w) in
  if succeeded (spawn host (issued w) cfg) then
    issued (snd (snd after)) = issued w ++ [cfg; build_cmd b]
  else
    issued (snd (snd after)) = issued w ++ [cfg] /\
    exists e, fst after = Raise e.
Proof.
  intros Hk. cbn zeta. rewrite (build_cmake _ _ _ _ Hk), cmake_build_unfold. cbn zeta.
  destruct (succeeded _) eqn:Hs; cbn [fst snd].
  - rewrite !run_cmd_issued, <- app_assoc. reflexivity.
  - split; [apply run_cmd_issued|].
    destruct (fst (run_cmd host _ w)) as [[]|e] eqn:Hr; [|eauto].
    apply run_cmd_returns in Hr. congruence.
Qed.

Lemma cmake_build_commands_witness :
  kind msvc_builder <> NDK /\
  issued (snd (snd (build (linux all_succeed) (Some ["-DCMAKE_BUILD_TYPE=Release"])
                      (msvc_builder, bare_world)))) =
  [["cmake"; "-B"; "/tmp/out"; "-G"; "Visual Studio 17 2022"; "-DCMAKE_BUILD_TYPE=Release"];
   ["cmake"; "--build"; "/tmp/out"]].
Proof.
  split; [discriminate|].
  apply (cmake_build_commands (linux all_succeed) msvc_builder
           (Some ["-DCMAKE_BUILD_TYPE=Release"]) bare_world).
  discriminate.
Defined.

(** C1 as stated fails: when the configure step fails the build command
    is never issued. *)
Lemma cmake_build_stops_after_failed_configure :
  kind msvc_builder <> NDK /\
  build (linux all_fail) None (msvc_builder, bare_world) =
  (Raise (SystemExit 1),
   (msvc_builder,
    {| environ := ∅; root := Dir true [];
       issued := [["cmake"; "-B"; "/tmp/out"; "-G"; "Visual Studio 17 2022"]];
       printed := ["命令执行失败: cmake -B /tmp/out -G Visual Studio 17 2022";
                   "错误输出: toolchain error"] |})) /\
  ~ issues_both (linux all_fail) msvc_builder None bare_world.
Proof.
  split; [discriminate|]. split; [reflexivity|].
  unfold issues_both. intros H. vm_compute in H. discriminate H.
Qed.

(** C2. A constructed NDK builder holds the resolved [ndk-build] path
    followed by [V=1], [NDK_OUT=<dir>] and [NDK_LIBS_OUT=<dir>], and each
    [build] call issues exactly one command: these tokens followed by the
    options. On a POSIX host with [ANDROID_NDK=/opt/ndk], an existing
    [/opt/ndk/ndk-build] and the build directory [/tmp/out], the call
    [build(["NDK_APPLICATION_MK=Application.mk"])] issues exactly the
    command of the scenario. *)
Theorem ndk_build_command :
  (forall host dir prefix w b w1,
     BuilderFactory.create host (Member NDK) dir prefix w = (Return b, w1) ->
     exists p,
       resolve host NDK prefix (environ w) = Return [p] /\
       path_exists host w p = true /\
       forall opts w2,
         issued (snd (snd (build host opts (b, w2)))) =
         issued w2 ++
         [[str host p; "V=1"; "NDK_OUT=" +:+ dir; "NDK_LIBS_OUT=" +:+ dir]
          ++ or_empty opts]) /\
  (forall platform cwd spawn w,
     platform <> "win32" ->
     environ w !! "ANDROID_NDK" = Some "/opt/ndk" ->
     is_Some (lookup_path (root w) ["opt"; "ndk"; "ndk-build"]) ->
     exists b,
       BuilderFactory.create (posix_host platform cwd spawn) (Member NDK)
         "/tmp/out" "" w = (Return b, w) /\
       issued (snd (snd (build (posix_host platform cwd spawn)
                           (Some ["NDK_APPLICATION_MK=Application.mk"]) (b, w)))) =
       issued w ++
       [["/opt/ndk/ndk-build"; "V=1"; "NDK_OUT=/tmp/out"; "NDK_LIBS_OUT=/tmp/out";
         "NDK_APPLICATION_MK=Application.mk"]]).
Proof.
  split.
  - intros host dir prefix w b w1 H.
    rewrite create_unfold in H. unfold construction in H.
    destruct (resolve host NDK prefix (environ w)) as [paths|e] eqn:Hr; [|discriminate].
    assert (exists p, paths = [p]) as [p ->].
    { unfold resolve in Hr. cbn [env_var] in Hr.
      destruct (truthy prefix); [injection Hr as <-; eexists; reflexivity|].
      destruct (environ w !! "ANDROID_NDK") as [v|]; [|discriminate].
      destruct (truthy v); [injection Hr as <-; eexists; reflexivity|discriminate]. }
    unfold first_missing in H. cbn [List.find] in H.
    destruct (path_exists host w p) eqn:Hp; cbn [negb] in H; [|discriminate].
    injection H as <- <-. exists p. split; [reflexivity|]. split; [exact Hp|].
    intros opts w2. rewrite build_ndk by reflexivity.
    rewrite ndk_build_unfold. cbn [snd]. apply run_cmd_issued.
  - intros platform cwd spawn w Hplat Henv Hfile.
    assert (Hp : path_exists (posix_host platform cwd spawn) w
                   (Path_of "/opt/ndk" </> "ndk-build") = true).
    { unfold path_exists, fs_exists. apply bool_decide_eq_true. exact Hfile. }
    eexists. split.
    + rewrite create_unfold. unfold construction, resolve. cbn [env_var truthy].
      rewrite Henv. cbn [truthy env_paths]. unfold ndk_build_name.
      cbn [sys_platform posix_host].
      apply String.eqb_neq in Hplat. rewrite Hplat.
      unfold first_missing. cbn [List.find]. rewrite Hp. cbn [negb].
      reflexivity.
    + rewrite build_ndk by reflexivity.
      rewrite ndk_build_unfold. cbn [snd]. rewrite run_cmd_issued. reflexivity.
Qed.

Lemma ndk_build_command_witness :
  BuilderFactory.create (linux all_succeed) (Member NDK) "/tmp/out" "" ndk_world =
  (Return (built NDK "/tmp/out" ["/opt/ndk/ndk-build"]), ndk_world) /\
  exists p,
    resolve (linux all_succeed) NDK "" (environ ndk_world) = Return [p] /\
    path_exists (linux all_succeed) ndk_world p = true /\
    forall opts w2,
      issued (snd (snd (build (linux all_succeed) opts
                          (built NDK "/tmp/out" ["/opt/ndk/ndk-build"], w2)))) =
      issued w2 ++
      [[str (linux all_succeed) p; "V=1"; "NDK_OUT=" +:+ "/tmp/out";
        "NDK_LIBS_OUT=" +:+ "/tmp/out"] ++ or_empty opts].
Proof.
  split; [reflexivity|].
  apply (proj1 ndk_build_command (linux all_succeed) "/tmp/out" "" ndk_world
           (built NDK "/tmp/out" ["/opt/ndk/ndk-build"]) ndk_world).
  reflexivity.
Defined.

(** *** Repeated builds *)

Lemma build_step host opts b w :
  exists r w1 l,
    build host opts (b, w) = (r, (b, w1)) /\
    issued w1 = issued w ++ l /\
    l `prefix_of` command_lines b opts /\
    (r = Return tt -> l = command_lines b opts).
Proof.
  rewrite build_unfold. unfold command_lines.
  destruct (kind b) eqn:Hk.
  1: { rewrite ndk_build_unfold. do 3 eexists. split; [reflexivity|].
       split; [apply run_cmd_issued|]. split; [reflexivity|]. reflexivity. }
  all: rewrite cmake_build_unfold; cbn zeta;
    destruct (succeeded _) eqn:Hs;
    [ do 3 eexists; split; [reflexivity|];
      split; [rewrite !run_cmd_issued, <- app_assoc; reflexivity|];
      split; reflexivity
    | do 3 eexists; split; [reflexivity|];
      split; [apply run_cmd_issued|];
      split; [eexists [_]; reflexivity|];
      intros Hr; apply run_cmd_returns in Hr; congruence ].
Qed.

(** C10. A [build] call leaves the instance as it was, whatever becomes
    of the children, so every call of a row of [n] calls with the same
    options composes the same command lines: the commands issued are the
    lines of one call, repeated, up to the command that stopped the row,
    and all [n] times when no call raised. *)
Theorem build_keeps_builder host n b opts w :
  exists r w' l,
    repeat_build host n opts (b, w) = (r, (b, w')) /\
    issued w' = issued w ++ l /\
    l `prefix_of` concat (replicate n (command_lines b opts)) /\
    (r = Return tt -> l = concat (replicate n (command_lines b opts))).
Proof.
  revert w. induction n as [|n IH]; intros w.
  - exists (Return tt), w, []. cbn. rewrite app_nil_r. repeat split; reflexivity.
  - cbn [repeat_build]. unfold mbind, M_bind.
    destruct (build_step host opts b w) as (r1 & w1 & l1 & -> & Hi1 & Hp1 & Hr1).
    destruct r1 as [[]|e].
    + destruct (IH w1) as (r & w' & l & -> & Hi & Hp & Hr).
      rewrite (Hr1 eq_refl) in *.
      exists r, w', (command_lines b opts ++ l). split; [reflexivity|].
      split; [rewrite Hi, Hi1, app_assoc; reflexivity|].
      cbn [replicate concat]. split; [apply prefix_app, Hp|].
      intros Hret. rewrite (Hr Hret). reflexivity.
    + exists (Raise e), w1, l1. split; [reflexivity|]. split; [exact Hi1|].
      cbn [replicate concat]. split; [|discriminate].
      apply prefix_app_r, Hp1.
Qed.

(** C3, as amended. With a non-empty prefix a variant looks for its
    toolchain at the paths derived from the prefix alone, whatever the
    environment holds. For the NDK, MinGW, Android and OHOS variants these
    are the path joins of the prefix with the fixed relative layout; for
    the Clang and GCC variants they are the paths whose text is the prefix
    immediately followed by the compiler name. *)
Theorem prefix_resolution host t dir prefix w :
  truthy prefix = true ->
  constructs_from host t dir prefix w (prefix_paths host t prefix) /\
  (t = NDK \/ t = CMAKE_WINDOWS_MINGW \/ t = CMAKE_ANDROID \/ t = CMAKE_OHOS ->
   prefix_paths host t prefix = joined_paths host t prefix) /\
  (t = CMAKE_CLANG ->
   prefix_paths host t prefix =
   [Path_of (prefix +:+ clang_name host); Path_of (prefix +:+ clangpp_name host)]) /\
  (t = CMAKE_GCC ->
   prefix_paths host t prefix =
   [Path_of (prefix +:+ "gcc"); Path_of (prefix +:+ "g++")]).
Proof.
  intros Hp. split; [|split; [|split]].
  - unfold constructs_from. rewrite create_unfold. unfold construction, resolve.
    rewrite Hp. destruct t; reflexivity.
  - intros [-> | [-> | [-> | ->]]]; reflexivity.
  - intros ->. reflexivity.
  - intros ->. reflexivity.
Qed.

Lemma prefix_resolution_witness :
  truthy "/opt/ndk" = true /\
  BuilderFactory.create (linux all_succeed) (Member NDK) "/tmp/out" "/opt/ndk" ndk_world =
  (Return (built NDK "/tmp/out" ["/opt/ndk/ndk-build"]), ndk_world).
Proof.
  split; [reflexivity|].
  apply (proj1 (prefix_resolution (linux all_succeed) NDK "/tmp/out" "/opt/ndk"
                  ndk_world eq_refl)).
Defined.

(** C3 as stated fails for the Clang variant (and likewise for GCC): with
    the prefix [/usr/bin] the compilers are looked for at [/usr/binclang]
    and [/usr/binclang++], not at the joins [/usr/bin/clang] and
    [/usr/bin/clang++], which exist. *)
Lemma clang_prefix_is_not_joined :
  truthy "/usr/bin" = true /\
  map (str (linux all_succeed)) (joined_paths (linux all_succeed) CMAKE_CLANG "/usr/bin") =
  ["/usr/bin/clang"; "/usr/bin/clang++"] /\
  first_missing (linux all_succeed) clang_world
    (joined_paths (linux all_succeed) CMAKE_CLANG "/usr/bin") = None /\
  BuilderFactory.create (linux all_succeed) (Member CMAKE_CLANG) "/tmp/out" "/usr/bin"
    clang_world =
  (Raise (FileNotFoundError "/usr/binclang does not exist"), clang_world) /\
  ~ constructs_from (linux all_succeed) CMAKE_CLANG "/tmp/out" "/usr/bin" clang_world
      (joined_paths (linux all_succeed) CMAKE_CLANG "/usr/bin").
Proof.
  split; [reflexivity|]. split; [reflexivity|]. split; [reflexivity|].
  split; [reflexivity|].
  unfold constructs_from. intros H. vm_compute in H. discriminate H.
Qed.

(** On a POSIX host a prefix that ends with the separator makes the two
    readings of C3 agree. *)
Lemma concatenation_is_join_after_separator prefix name :
  posixpath.endswith_sep prefix = true ->
  posixpath.startswith_sep name = false ->
  posixpath.path_str (raw_paths (Path_of (prefix +:+ name))) =
  posixpath.path_str (raw_paths (Path_of prefix </> name)).
Proof.
  intros He Hs. cbn [raw_paths Path_of Path_div app].
  unfold posixpath.path_str, posixpath.join. cbn [fold_left].
  unfold posixpath.join_step. rewrite Hs, He, orb_true_r. reflexivity.
Qed.

(** C6. A variant that reads an environment variable (NDK:
    [ANDROID_NDK], MinGW: [MinGW], Clang: [LLVM], GCC: [GCC], OHOS:
    [OHOS_SDK], and Android: [ANDROID_NDK]) and is constructed without a
    prefix while the variable is unset or empty raises the configuration
    error that names the variable; the world is as before, so no command
    was issued. *)
Theorem unset_variable_fails host t var dir w :
  env_var t = Some var ->
  truthy_opt (environ w !! var) = false ->
  BuilderFactory.create host (Member t) dir "" w =
  (Raise (EnvironmentError (var +:+ " environment variable is not set")), w) /\
  map env_var [NDK; CMAKE_WINDOWS_MINGW; CMAKE_CLANG; CMAKE_GCC; CMAKE_OHOS] =
  [Some "ANDROID_NDK"; Some "MinGW"; Some "LLVM"; Some "GCC"; Some "OHOS_SDK"].
Proof.
  intros Hv He. split; [|reflexivity].
  rewrite create_unfold. unfold construction, resolve. rewrite Hv. cbn [truthy].
  unfold truthy_opt in He.
  destruct (environ w !! var) as [v|]; [rewrite He|]; reflexivity.
Qed.

Lemma unset_variable_fails_witness :
  env_var CMAKE_CLANG = Some "LLVM" /\
  truthy_opt (environ bare_world !! "LLVM") = false /\
  BuilderFactory.create (linux all_succeed) (Member CMAKE_CLANG) "/tmp/out" "" bare_world =
  (Raise (EnvironmentError "LLVM environment variable is not set"), bare_world).
Proof.
  split; [reflexivity|]. split; [reflexivity|].
  apply (proj1 (unset_variable_fails (linux all_succeed) CMAKE_CLANG "LLVM" "/tmp/out"
                  bare_world eq_refl eq_refl)).
Defined.

(** C7. When the candidate paths of a variant are resolved (from the
    prefix or from the variable) and one of them is not on disk,
    construction raises the not-found error that names the first
    candidate that is missing, as the text that was looked up; the world
    is as before, so no command was issued. *)
Theorem missing_toolchain_fails host t dir prefix w paths q :
  resolve host t prefix (environ w) = Return paths ->
  In q paths ->
  fs_exists host w (str host q) = false ->
  exists p,
    first_missing host w paths = Some p /\
    In p paths /\
    fs_exists host w (str host p) = false /\
    BuilderFactory.create host (Member t) dir prefix w =
    (Raise (FileNotFoundError (str host p +:+ " does not exist")), w).
Proof.
  intros Hr Hin Hq.
  destruct (first_missing host w paths) as [p|] eqn:Hm.
  - pose proof Hm as Hm'. unfold first_missing in Hm'.
    apply find_some in Hm' as [Hp Hex]. apply negb_true_iff in Hex.
    exists p. split; [reflexivity|]. split; [exact Hp|]. split; [exact Hex|].
    rewrite create_unfold. unfold construction. rewrite Hr, Hm. reflexivity.
  - exfalso. unfold first_missing in Hm.
    apply (find_none _ _ Hm) in Hin. unfold path_exists in Hin.
    rewrite Hq in Hin. discriminate Hin.
Qed.

Lemma missing_toolchain_fails_witness :
  resolve (linux all_succeed) CMAKE_GCC "/no/such/" (environ clang_world) =
  Return [Path_of "/no/such/gcc"; Path_of "/no/such/g++"] /\
  In (Path_of "/no/such/g++") [Path_of "/no/such/gcc"; Path_of "/no/such/g++"] /\
  fs_exists (linux all_succeed) clang_world "/no/such/g++" = false /\
  exists p,
    first_missing (linux all_succeed) clang_world
      [Path_of "/no/such/gcc"; Path_of "/no/such/g++"] = Some p /\
    In p [Path_of "/no/such/gcc"; Path_of "/no/such/g++"] /\
    fs_exists (linux all_succeed) clang_world (str (linux all_succeed) p) = false /\
    BuilderFactory.create (linux all_succeed) (Member CMAKE_GCC) "/tmp/out" "/no/such/"
      clang_world =
    (Raise (FileNotFoundError (str (linux all_succeed) p +:+ " does not exist")),
     clang_world).
Proof.
  split; [reflexivity|]. split; [right; left; reflexivity|]. split; [reflexivity|].
  apply (missing_toolchain_fails (linux all_succeed) CMAKE_GCC "/tmp/out"
           "/no/such/" clang_world
           [Path_of "/no/such/gcc"; Path_of "/no/such/g++"]
           (Path_of "/no/such/g++") eq_refl).
  - right; left; reflexivity.
  - reflexivity.
Defined.

(** C8. For a member of [BuilderType] the factory calls the constructor
    of the class that goes with it, and what it returns is an instance of
    that class for the given build directory; for any other value it
    raises the selector error at once, the world untouched. *)
Theorem factory_dispatch host dir prefix w :
  (forall t,
     BuilderFactory.create host (Member t) dir prefix w =
     new t (constructor_of host t dir prefix) w) /\
  (forall t b w',
     BuilderFactory.create host (Member t) dir prefix w = (Return b, w') ->
     kind b = t /\ build_dir b = dir /\ w' = w) /\
  (forall shown,
     BuilderFactory.create host (Foreign shown) dir prefix w =
     (Raise (ValueError ("Invalid builder type: " +:+ shown)), w)).
Proof.
  split; [|split].
  - intros t. destruct t; reflexivity.
  - intros t b w' H. rewrite create_unfold in H. unfold construction in H.
    destruct (resolve host t prefix (environ w)) as [paths|e]; [|discriminate].
    destruct (first_missing host w paths); [discriminate|].
    injection H as <- <-. destruct t; repeat split; reflexivity.
  - intros shown. reflexivity.
Qed.

Lemma factory_dispatch_witness :
  BuilderFactory.create (linux all_succeed) (Member NDK) "/tmp/out" "" ndk_world =
  (Return (built NDK "/tmp/out" ["/opt/ndk/ndk-build"]), ndk_world) /\
  kind (built NDK "/tmp/out" ["/opt/ndk/ndk-build"]) = NDK /\
  build_dir (built NDK "/tmp/out" ["/opt/ndk/ndk-build"]) = "/tmp/out" /\
  ndk_world = ndk_world.
Proof.
  split; [reflexivity|].
  apply (proj1 (proj2 (factory_dispatch (linux all_succeed) "/tmp/out" "" ndk_world))
           NDK (built NDK "/tmp/out" ["/opt/ndk/ndk-build"]) ndk_world).
  reflexivity.
Defined.

(** C9. The factory builds the MSVC variant without looking at the
    prefix: for a given build directory and any two prefixes (on any
    hosts, in any worlds) construction succeeds with one and the same
    instance, whose configure and build command lines are made of the
    build directory alone. *)
Theorem msvc_ignores_prefix host1 host2 dir prefix1 prefix2 w1 w2 :
  exists b,
    BuilderFactory.create host1 (Member CMAKE_WINDOWS_VS_MSVC) dir prefix1 w1 =
    (Return b, w1) /\
    BuilderFactory.create host2 (Member CMAKE_WINDOWS_VS_MSVC) dir prefix2 w2 =
    (Return b, w2) /\
    build_dir b = dir /\
    config_cmd b = ["cmake"; "-B"; dir; "-G"; "Visual Studio 17 2022"] /\
    build_cmd b = ["cmake"; "--build"; dir].
Proof.
  exists (built CMAKE_WINDOWS_VS_MSVC dir []).
  rewrite !create_unfold. unfold construction, resolve, first_missing.
  cbn [env_var List.find map]. repeat split.
Qed.

(** *** The file tree *)

(** Induction over a tree with the hypothesis for every entry of a
    directory. *)
Lemma node_induction (P : node -> Prop) :
  P File ->
  (forall w es, Forall (fun e => P (snd e)) es -> P (Dir w es)) ->
  forall n, P n.
Proof.
  intros HF HD. fix IH 1. intros [|w es]; [exact HF|].
  apply HD. induction es as [|[name c] rest IHes]; constructor.
  - apply IH.
  - exact IHes.
Qed.

Lemma find_entry_update_some name g es :
  find_entry name (update_entry name (fun c => Some (g c)) es) =
  g <$> find_entry name es.
Proof.
  induction es as [|[n c] rest IH]; [reflexivity|].
  cbn [update_entry find_entry].
  destruct (String.eqb n name) eqn:E; cbn [find_entry]; rewrite E; [reflexivity|exact IH].
Qed.

Lemma find_entry_not_listed name es :
  name ∉ es.*1 -> find_entry name es = None.
Proof.
  induction es as [|[n c] rest IH]; [reflexivity|].
  cbn. intros Hn. apply not_elem_of_cons in Hn as [Hne Hn].
  destruct (String.eqb n name) eqn:E; [apply String.eqb_eq in E; congruence|].
  apply IH, Hn.
Qed.

Lemma find_entry_update_none name f es c :
  NoDup es.*1 ->
  find_entry name es = Some c ->
  f c = None ->
  find_entry name (update_entry name f es) = None.
Proof.
  induction es as [|[n c0] rest IH]; [discriminate|].
  cbn. intros Hnd Hf Hc. apply NoDup_cons in Hnd as [Hn Hnd].
  destruct (String.eqb n name) eqn:E.
  - injection Hf as ->. rewrite Hc. apply String.eqb_eq in E as ->.
    apply find_entry_not_listed, Hn.
  - cbn. rewrite E. apply IH; assumption.
Qed.

Lemma find_entry_elem name es c :
  find_entry name es = Some c -> (name, c) ∈ es.
Proof.
  induction es as [|[n c0] rest IH]; [discriminate|].
  cbn. destruct (String.eqb n name) eqn:E.
  - intros [= ->]. apply String.eqb_eq in E as ->. left.
  - intros H. right. apply IH, H.
Qed.

Lemma unique_names_dir w es :
  unique_names (Dir w es) = true ->
  NoDup es.*1 /\
  forall name c, find_entry name es = Some c -> unique_names c = true.
Proof.
  cbn [unique_names]. intros H. apply andb_true_iff in H as [Hnd Hall].
  apply bool_decide_eq_true in Hnd. split; [exact Hnd|].
  intros name c Hf. apply find_entry_elem in Hf.
  rewrite forallb_forall in Hall. apply list_elem_of_In in Hf.
  apply (Hall _ Hf).
Qed.

Lemma update_entry_absent name f es :
  find_entry name es = None -> update_entry name f es = es.
Proof.
  induction es as [|[n c] rest IH]; [reflexivity|].
  cbn. destruct (String.eqb n name); [discriminate|].
  intros H. rewrite (IH H). reflexivity.
Qed.

Lemma update_entry_same name f es c :
  find_entry name es = Some c -> f c = Some c -> update_entry name f es = es.
Proof.
  induction es as [|[n c0] rest IH]; [discriminate|].
  cbn. destruct (String.eqb n name).
  - intros [= ->] ->. reflexivity.
  - intros H Hc. rewrite (IH H Hc). reflexivity.
Qed.

Lemma update_entry_const name f es c :
  find_entry name es = Some c ->
  update_entry name (fun _ => f c) es = update_entry name f es.
Proof.
  induction es as [|[n c0] rest IH]; [discriminate|].
  cbn. destruct (String.eqb n name).
  - intros [= ->]. reflexivity.
  - intros H. rewrite (IH H). reflexivity.
Qed.

Lemma rmtree_at_cons ok n name rest :
  rest <> [] ->
  shutil.rmtree_at ok n (name :: rest) =
  match n with
  | File => n
  | Dir w es =>
      Dir w (update_entry name (fun c => Some (shutil.rmtree_at ok c rest)) es)
  end.
Proof. destruct rest; [congruence|reflexivity]. Qed.

(** [rmtree] on a path that names nothing leaves the tree as it is. *)
Lemma rmtree_at_absent ok path :
  forall n, lookup_path n path = None -> shutil.rmtree_at ok n path = n.
Proof.
  induction path as [|name rest IH]; [discriminate|].
  intros [|w es] H; [destruct rest; reflexivity|].
  cbn [lookup_path] in H.
  destruct rest as [|name' rest'].
  - cbn [shutil.rmtree_at].
    destruct (find_entry name es) eqn:E; [discriminate|].
    rewrite update_entry_absent by exact E. reflexivity.
  - rewrite rmtree_at_cons by discriminate.
    destruct (find_entry name es) as [c|] eqn:E.
    + rewrite (update_entry_same _ _ _ c E); [reflexivity|].
      rewrite (IH c H). reflexivity.
    + rewrite update_entry_absent by exact E. reflexivity.
Qed.

(** **** With [ignore_errors] the walk raises nothing *)

Lemma sweep_with_ignoring f g es :
  Forall (fun e => f (snd e) = (g (snd e), None)) es ->
  shutil.sweep_with f es = (shutil.sweep g es, None).
Proof.
  induction 1 as [|[name c] rest Hc _ IH]; [reflexivity|].
  cbn in *. rewrite Hc, IH. destruct (g c); reflexivity.
Qed.

Lemma remove_ignoring n :
  forall pw, shutil.remove true pw n = (shutil.discard pw n, None).
Proof.
  induction n as [|w es IH] using node_induction; intros pw.
  - destruct pw; reflexivity.
  - cbn [shutil.remove shutil.discard].
    rewrite (sweep_with_ignoring _ (shutil.discard w)).
    + destruct (is_nil _), pw; reflexivity.
    + eapply Forall_impl; [exact IH|]. intros e He. apply He.
Qed.

Lemma sweep_with_remove_ignoring w es :
  shutil.sweep_with (shutil.remove true w) es =
  (shutil.sweep (shutil.discard w) es, None).
Proof.
  apply sweep_with_ignoring, Forall_forall. intros e _. apply remove_ignoring.
Qed.

Lemma remove_top_ignoring pw ok n :
  shutil.remove_top true pw ok n = (shutil.discard_top (pw && ok) n, None).
Proof.
  destruct n as [|w es]; [reflexivity|].
  cbn [shutil.remove_top shutil.discard_top shutil.discard].
  rewrite sweep_with_remove_ignoring.
  destruct (is_nil _), ok, pw; reflexivity.
Qed.

(** The walk that ignores the errors raises none and leaves the tree
    that [rmtree_at] describes. *)
Lemma rmtree_ignoring ok path :
  forall n, shutil.rmtree true ok n path = (shutil.rmtree_at ok n path, None).
Proof.
  induction path as [|name rest IH]; intros n.
  - destruct n as [|w es]; [reflexivity|].
    cbn [shutil.rmtree shutil.rmtree_at shutil.discard].
    rewrite sweep_with_remove_ignoring. reflexivity.
  - destruct n as [|w es]; [destruct rest; reflexivity|].
    cbn [shutil.rmtree].
    destruct (find_entry name es) as [c|] eqn:E.
    + destruct rest as [|name' rest'].
      * rewrite remove_top_ignoring. cbn [shutil.rmtree_at].
        rewrite (update_entry_const _ (shutil.discard_top (w && ok)) _ _ E).
        reflexivity.
      * rewrite IH. rewrite (rmtree_at_cons ok (Dir w es)) by discriminate.
        rewrite (update_entry_const _
                   (fun c => Some (shutil.rmtree_at ok c (name' :: rest'))) _ _ E).
        reflexivity.
    + rewrite (rmtree_at_absent ok (name :: rest) (Dir w es)); [reflexivity|].
      cbn [lookup_path]. rewrite E. reflexivity.
Qed.

(** **** A walk that meets no error removes the tree *)





Lemma clean_unfold host b w :
  clean host (b, w) =
  (Return tt,
   (b, if truthy (build_dir b)
       then set_root (shutil.rmtree_at (negb (ends_in_dot host (build_dir b)))
                        (root w) (locate host (build_dir b))) w
       else w)).
Proof.
  unfold clean, BuilderImpl.clean, mbind, M_bind, get_self, call, shutil_rmtree.
  cbn [fst snd]. destruct (truthy (build_dir b)); cbn [negb]; [|reflexivity].
  rewrite rmtree_ignoring. reflexivity.
Qed.





(** A build directory named by [.], by a path that ends in [.] or [..],
    or by the empty string: [clean] empties the directory of the first
    three and leaves it in place, and does nothing for the last. *)
Lemma clean_keeps_directory_named_by_dots :
  let host := posix_host "linux" ["tmp"; "out"] all_succeed in
  let emptied := set_root (Dir true [("tmp", Dir true [("out", Dir true [])])])
                   writable_world in
  let named (dir : string) := set_build_dir dir msvc_builder in
  snd (snd (clean host (named ".", writable_world))) = emptied /\
  snd (snd (clean host (named "/tmp/out/.", writable_world))) = emptied /\
  snd (snd (clean host (named "/tmp/out/CMakeFiles/..", writable_world))) = emptied /\
  snd (snd (clean host (named "", writable_world))) = writable_world /\
  snd (snd (clean host (named "/tmp/out/", writable_world))) =
  set_root (Dir true [("tmp", Dir true [])]) writable_world.
Proof. repeat split. Qed.

(** ** Further properties *)

(** *** Construction *)

(** X1. Construction through the factory only reads: whatever the
    selector and whatever the outcome, the world afterwards is the world
    before (nothing issued, nothing printed, no file touched). *)
Theorem construction_only_reads host selector dir prefix w :
  snd (BuilderFactory.create host selector dir prefix w) = w.
Proof.
  destruct selector as [t|shown]; [|reflexivity].
  rewrite create_unfold. unfold construction.
  destruct (resolve host t prefix (environ w)) as [paths|e]; [|reflexivity].
  destruct (first_missing host w paths); reflexivity.
Qed.

Lemma first_missing_none host w paths :
  first_missing host w paths = None <->
  Forall (fun p => fs_exists host w (str host p) = true) paths.
Proof.
  unfold first_missing. induction paths as [|p ps IH].
  - split; [constructor | reflexivity].
  - cbn [List.find]. unfold path_exists at 1.
    destruct (fs_exists host w (str host p)) eqn:E; cbn [negb].
    + rewrite IH. split; [intros H; constructor; assumption|].
      intros H. apply Forall_cons in H as [_ H]. exact H.
    + split; [discriminate|]. intros H. apply Forall_cons in H as [H _]. congruence.
Qed.

(** X2. The factory returns an instance exactly when the candidate
    paths of the variant resolve and every one of them is on disk; the
    instance then holds the command lines assembled from these paths, so
    every toolchain path in its command lines existed at construction. *)
Theorem construction_succeeds_iff host t dir prefix w b w' :
  BuilderFactory.create host (Member t) dir prefix w = (Return b, w') <->
  exists paths,
    resolve host t prefix (environ w) = Return paths /\
    Forall (fun p => fs_exists host w (str host p) = true) paths /\
    b = built t dir (map (str host) paths) /\
    w' = w.
Proof.
  rewrite create_unfold. unfold construction. split.
  - destruct (resolve host t prefix (environ w)) as [paths|e]; [|discriminate].
    destruct (first_missing host w paths) eqn:Hm; [discriminate|].
    intros [= <- <-]. exists paths. apply first_missing_none in Hm. auto.
  - intros (paths & -> & Hall & -> & ->).
    apply first_missing_none in Hall. rewrite Hall. reflexivity.
Qed.

(** X3. A non-empty prefix takes the place of the environment: the
    outcome of construction is the same in two worlds with the same file
    tree whatever their environment variables are, and it is never the
    configuration error of an unset variable. *)
Theorem prefix_overrides_environment host t dir prefix w1 w2 :
  truthy prefix = true ->
  root w1 = root w2 ->
  fst (BuilderFactory.create host (Member t) dir prefix w1) =
  fst (BuilderFactory.create host (Member t) dir prefix w2) /\
  forall msg,
    fst (BuilderFactory.create host (Member t) dir prefix w1) <>
    Raise (EnvironmentError msg).
Proof.
  intros Hp Hroot. rewrite !create_unfold. unfold construction, resolve. rewrite Hp.
  assert (Hm : forall paths, first_missing host w1 paths = first_missing host w2 paths).
  { intros paths. unfold first_missing, path_exists, fs_exists. rewrite Hroot. reflexivity. }
  destruct (env_var t); rewrite Hm; split;
    try (destruct (first_missing host w2 _); reflexivity);
    intros msg; destruct (first_missing host w2 _); discriminate.
Qed.

Lemma prefix_overrides_environment_witness :
  truthy "/opt/ndk" = true /\
  root ndk_world = root (set_root (root ndk_world) bare_world) /\
  fst (BuilderFactory.create (linux all_succeed) (Member CMAKE_ANDROID) "/tmp/out"
         "/opt/ndk" ndk_world) =
  fst (BuilderFactory.create (linux all_succeed) (Member CMAKE_ANDROID) "/tmp/out"
         "/opt/ndk" (set_root (root ndk_world) bare_world)).
Proof.
  split; [reflexivity|]. split; [reflexivity|].
  apply (proj1 (prefix_overrides_environment (linux all_succeed) CMAKE_ANDROID "/tmp/out"
                  "/opt/ndk" ndk_world (set_root (root ndk_world) bare_world)
                  eq_refl eq_refl)).
Defined.

(** X4. Without a prefix and with the variable of the variant set to a
    non-empty value, the toolchain is looked for below that value: the
    NDK variant directly below it, the MinGW, Clang and GCC variants in its
    [bin] directory, the Android and OHOS variants in [build/cmake]. *)
Theorem environment_resolution host t var v dir w :
  env_var t = Some var ->
  environ w !! var = Some v ->
  truthy v = true ->
  constructs_from host t dir "" w (env_paths host t v) /\
  env_paths host t v =
  match t with
  | NDK => [Path_of v </> ndk_build_name host]
  | CMAKE_WINDOWS_VS_MSVC => []
  | CMAKE_WINDOWS_MINGW => [Path_of v </> "bin" </> "mingw32-make.exe"]
  | CMAKE_CLANG =>
      [Path_of v </> "bin" </> clang_name host; Path_of v </> "bin" </> clangpp_name host]
  | CMAKE_GCC => [Path_of v </> "bin" </> "gcc"; Path_of v </> "bin" </> "g++"]
  | CMAKE_ANDROID => [Path_of v </> "build" </> "cmake" </> "android.toolchain.cmake"]
  | CMAKE_OHOS => [Path_of v </> "build" </> "cmake" </> "ohos.toolchain.cmake"]
  end.
Proof.
  intros Hv He Ht. split; [|destruct t; reflexivity].
  unfold constructs_from. rewrite create_unfold. unfold construction, resolve.
  rewrite Hv. cbn [truthy]. rewrite He, Ht. reflexivity.
Qed.

Lemma environment_resolution_witness :
  env_var NDK = Some "ANDROID_NDK" /\
  environ ndk_world !! "ANDROID_NDK" = Some "/opt/ndk" /\
  truthy "/opt/ndk" = true /\
  BuilderFactory.create (linux all_succeed) (Member NDK) "/tmp/out" "" ndk_world =
  (Return (built NDK "/tmp/out" ["/opt/ndk/ndk-build"]), ndk_world).
Proof.
  split; [reflexivity|]. split; [reflexivity|]. split; [reflexivity|].
  apply (proj1 (environment_resolution (linux all_succeed) NDK "ANDROID_NDK" "/opt/ndk"
                  "/tmp/out" ndk_world eq_refl eq_refl eq_refl)).
Defined.

(** X5. Every CMake instance the factory returns configures with
    [cmake -B <dir> -G <generator>], the generator being Visual Studio 17
    2022 for MSVC, MinGW Makefiles for MinGW and Ninja for the others, and
    builds with [cmake --build <dir>], for the same directory. *)
Theorem cmake_command_shape host t dir prefix w b w' :
  BuilderFactory.create host (Member t) dir prefix w = (Return b, w') ->
  t <> NDK ->
  build_cmd b = ["cmake"; "--build"; dir] /\
  exists rest, config_cmd b = ["cmake"; "-B"; dir; "-G"; generator t] ++ rest.
Proof.
  intros H Ht. rewrite create_unfold in H. unfold construction in H.
  destruct (resolve host t prefix (environ w)) as [paths|e]; [|discriminate].
  destruct (first_missing host w paths); [discriminate|].
  injection H as <- _.
  destruct t; try congruence; (split; [reflexivity|]); eexists; reflexivity.
Qed.

Lemma cmake_command_shape_witness :
  BuilderFactory.create (linux all_succeed) (Member CMAKE_CLANG) "/tmp/out" "/usr/bin/"
    clang_world =
  (Return (built CMAKE_CLANG "/tmp/out" ["/usr/bin/clang"; "/usr/bin/clang++"]),
   clang_world) /\
  CMAKE_CLANG <> NDK /\
  build_cmd (built CMAKE_CLANG "/tmp/out" ["/usr/bin/clang"; "/usr/bin/clang++"]) =
  ["cmake"; "--build"; "/tmp/out"].
Proof.
  split; [reflexivity|]. split; [discriminate|].
  apply (proj1 (cmake_command_shape (linux all_succeed) CMAKE_CLANG "/tmp/out" "/usr/bin/"
                  clang_world
                  (built CMAKE_CLANG "/tmp/out" ["/usr/bin/clang"; "/usr/bin/clang++"])
                  clang_world eq_refl ltac:(discriminate))).
Defined.

(** X6. The names of the executables follow the platform only for the
    NDK and Clang variants: on [win32] they are [ndk-build.cmd],
    [clang.exe] and [clang++.exe], elsewhere [ndk-build], [clang] and
    [clang++]. The GCC variant looks for [gcc] and [g++] and the MinGW
    variant for [mingw32-make.exe] on every platform. *)
Theorem toolchain_names_follow_platform host dir prefix w :
  truthy prefix = true ->
  (sys_platform host = "win32" ->
   constructs_from host NDK dir prefix w [Path_of prefix </> "ndk-build.cmd"] /\
   constructs_from host CMAKE_CLANG dir prefix w
     [Path_of (prefix +:+ "clang.exe"); Path_of (prefix +:+ "clang++.exe")]) /\
  (sys_platform host <> "win32" ->
   constructs_from host NDK dir prefix w [Path_of prefix </> "ndk-build"] /\
   constructs_from host CMAKE_CLANG dir prefix w
     [Path_of (prefix +:+ "clang"); Path_of (prefix +:+ "clang++")]) /\
  constructs_from host CMAKE_GCC dir prefix w
    [Path_of (prefix +:+ "gcc"); Path_of (prefix +:+ "g++")] /\
  constructs_from host CMAKE_WINDOWS_MINGW dir prefix w
    [Path_of prefix </> "mingw32-make.exe"].
Proof.
  intros Hp.
  assert (H : forall t, constructs_from host t dir prefix w (prefix_paths host t prefix)).
  { intros t. unfold constructs_from. rewrite create_unfold.
    unfold construction, resolve. rewrite Hp. destruct t; reflexivity. }
  split; [|split; [|split]].
  - intros Hw. pose proof (H NDK) as H1. pose proof (H CMAKE_CLANG) as H2.
    cbn [prefix_paths] in H1, H2.
    unfold ndk_build_name, clang_name, clangpp_name in *.
    rewrite Hw in H1, H2. split; assumption.
  - intros Hw. pose proof (H NDK) as H1. pose proof (H CMAKE_CLANG) as H2.
    cbn [prefix_paths] in H1, H2.
    unfold ndk_build_name, clang_name, clangpp_name in *.
    apply String.eqb_neq in Hw. rewrite Hw in H1, H2. split; assumption.
  - apply (H CMAKE_GCC).
  - apply (H CMAKE_WINDOWS_MINGW).
Qed.

Lemma toolchain_names_follow_platform_witness :
  truthy "/opt/ndk" = true /\
  sys_platform (linux all_succeed) <> "win32" /\
  BuilderFactory.create (linux all_succeed) (Member NDK) "/tmp/out" "/opt/ndk" ndk_world =
  (Return (built NDK "/tmp/out" ["/opt/ndk/ndk-build"]), ndk_world).
Proof.
  split; [reflexivity|]. split; [discriminate|].
  apply (proj1 (proj1 (proj2 (toolchain_names_follow_platform (linux all_succeed)
                                "/tmp/out" "/opt/ndk" ndk_world eq_refl))
                  ltac:(discriminate))).
Defined.

Lemma endswith_sep_truthy s : posixpath.endswith_sep s = true -> truthy s = true.
Proof. destruct s; [discriminate|reflexivity]. Qed.

(** X7. On a POSIX host a Clang or GCC prefix that ends with the
    separator names a directory: the compilers are looked for at the path
    joins of the prefix with their names. *)
Theorem compiler_prefix_with_separator platform cwd spawn t dir prefix w :
  t = CMAKE_CLANG \/ t = CMAKE_GCC ->
  posixpath.endswith_sep prefix = true ->
  constructs_from (posix_host platform cwd spawn) t dir prefix w
    (joined_paths (posix_host platform cwd spawn) t prefix).
Proof.
  intros Ht He. set (host := posix_host platform cwd spawn).
  assert (Hs : forall name, posixpath.startswith_sep name = false ->
                 str host (Path_of (prefix +:+ name)) = str host (Path_of prefix </> name)).
  { intros name Hn. apply concatenation_is_join_after_separator; assumption. }
  assert (Hc : posixpath.startswith_sep (clang_name host) = false)
    by (unfold clang_name; destruct (String.eqb _ _); reflexivity).
  assert (Hcpp : posixpath.startswith_sep (clangpp_name host) = false)
    by (unfold clangpp_name; destruct (String.eqb _ _); reflexivity).
  unfold constructs_from. rewrite create_unfold. unfold construction, resolve.
  rewrite (endswith_sep_truthy _ He).
  destruct Ht as [-> | ->]; cbn [env_var prefix_paths joined_paths layout map fold_left];
    unfold first_missing, does_not_exist, path_exists; cbn [List.find map].
  - rewrite !(Hs _ Hc), !(Hs _ Hcpp).
    repeat (destruct (fs_exists host w _); cbn [negb]);
      rewrite ?(Hs _ Hc), ?(Hs _ Hcpp); reflexivity.
  - rewrite !(Hs "gcc" eq_refl), !(Hs "g++" eq_refl).
    repeat (destruct (fs_exists host w _); cbn [negb]);
      rewrite ?(Hs "gcc" eq_refl), ?(Hs "g++" eq_refl); reflexivity.
Qed.

Lemma compiler_prefix_with_separator_witness :
  (CMAKE_CLANG = CMAKE_CLANG \/ CMAKE_CLANG = CMAKE_GCC) /\
  posixpath.endswith_sep "/usr/bin/" = true /\
  BuilderFactory.create (linux all_succeed) (Member CMAKE_CLANG) "/tmp/out" "/usr/bin/"
    clang_world =
  (Return (built CMAKE_CLANG "/tmp/out" ["/usr/bin/clang"; "/usr/bin/clang++"]),
   clang_world).
Proof.
  split; [left; reflexivity|]. split; [reflexivity|].
  apply (compiler_prefix_with_separator "linux" [] all_succeed CMAKE_CLANG "/tmp/out"
           "/usr/bin/" clang_world (or_introl eq_refl) eq_refl).
Defined.

(** *** Builds *)

(** X8. A [build] call returns normally exactly when every command of
    the call, run in order, exits with status zero. *)
Theorem build_returns_iff host b opts w :
  fst (build host opts (b, w)) = Return tt <->
  row_succeeds host (issued w) (command_lines b opts) = true.
Proof.
  rewrite build_unfold. unfold command_lines.
  destruct (kind b).
  1: { rewrite ndk_build_unfold. cbn [fst row_succeeds].
       rewrite andb_true_r. apply run_cmd_returns. }
  all: rewrite cmake_build_unfold; cbn zeta; cbn [row_succeeds];
    rewrite andb_true_r;
    destruct (succeeded (spawn host (issued w) _)) eqn:Hs; cbn [fst andb];
    [ rewrite run_cmd_returns, run_cmd_issued; reflexivity
    | split; [|discriminate]; intros Hr; apply run_cmd_returns in Hr; congruence ].
Qed.

Lemma run_cmd_success host args w :
  succeeded (spawn host (issued w) args) = true ->
  run_cmd host args w =
  (Return tt, add_printed (stdout_of (spawn host (issued w) args)) (add_issued args w)).
Proof.
  rewrite run_cmd_unfold. unfold run_cmd_outcome, succeeded, stdout_of.
  destruct (spawn host (issued w) args) as [rc out err|msg]; [|discriminate].
  intros ->. reflexivity.
Qed.

(** X9. When every command of a [build] call exits with status zero,
    the call returns with the instance as it was: the commands of the call
    are added to the issued ones and the standard output of each child is
    printed, in the order of the commands. *)
Theorem build_success host b opts w :
  row_succeeds host (issued w) (command_lines b opts) = true ->
  let after := build host opts (b, w) in
  fst after = Return tt /\
  fst (snd after) = b /\
  issued (snd (snd after)) = issued w ++ command_lines b opts /\
  printed (snd (snd after)) =
  printed w ++ row_outputs host (issued w) (command_lines b opts).
Proof.
  intros Hs.
  assert (Heq : build host opts (b, w) =
    (Return tt,
     (b, {| environ := environ w; root := root w;
            issued := issued w ++ command_lines b opts;
            printed := printed w ++
                       row_outputs host (issued w) (command_lines b opts) |}))).
  { revert Hs. rewrite build_unfold. unfold command_lines.
    destruct (kind b).
    1: { cbn [row_succeeds row_outputs]. rewrite andb_true_r. intros Hs.
         rewrite ndk_build_unfold, (run_cmd_success _ _ _ Hs). reflexivity. }
    all: cbn [row_succeeds row_outputs]; rewrite andb_true_r;
      intros Hs; apply andb_true_iff in Hs as [H1 H2];
      rewrite cmake_build_unfold; cbn zeta; rewrite H1;
      rewrite (run_cmd_success _ _ _ H1); cbn [snd];
      rewrite run_cmd_success by (cbn [issued add_printed add_issued]; exact H2);
      cbn [fst snd]; unfold add_printed, add_issued;
      cbn [environ root issued printed]; rewrite <- !app_assoc; reflexivity. }
  cbn zeta. rewrite Heq. repeat split.
Qed.

Lemma build_success_witness :
  row_succeeds (linux second_fails) (issued bare_world)
    (command_lines (built NDK "/tmp/out" ["/opt/ndk/ndk-build"]) (Some ["-j8"])) = true /\
  printed (snd (snd (build (linux second_fails) (Some ["-j8"])
                       (built NDK "/tmp/out" ["/opt/ndk/ndk-build"], bare_world)))) =
  ["-- Configuring done"].
Proof.
  split; [reflexivity|].
  apply (build_success (linux second_fails)
           (built NDK "/tmp/out" ["/opt/ndk/ndk-build"]) (Some ["-j8"]) bare_world).
  reflexivity.
Defined.

(** X10. When the configure step of a CMake build succeeds and the
    build step exits with another status than zero, both commands were
    issued, the output of the configure step is printed before the two
    lines about the failed build command, and the call ends the process
    with status 1, the instance as it was. *)
Theorem cmake_build_step_failure host b opts w out1 err1 rc out2 err2 :
  kind b <> NDK ->
  spawn host (issued w) (config_cmd b ++ or_empty opts) = Exited 0 out1 err1 ->
  spawn host (issued w ++ [config_cmd b ++ or_empty opts]) (build_cmd b) =
    Exited rc out2 err2 ->
  rc <> 0%Z ->
  let after := build host opts (b, w) in
  fst after = Raise (SystemExit 1) /\
  fst (snd after) = b /\
  issued (snd (snd after)) =
  issued w ++ [config_cmd b ++ or_empty opts; build_cmd b] /\
  printed (snd (snd after)) =
  printed w ++ [out1; failed_line (build_cmd b); stderr_line err2].
Proof.
  intros Hk H1 H2 Hrc.
  assert (Heq : build host opts (b, w) =
    (Raise (SystemExit 1),
     (b, {| environ := environ w; root := root w;
            issued := issued w ++ [config_cmd b ++ or_empty opts; build_cmd b];
            printed := printed w ++
                       [out1; failed_line (build_cmd b); stderr_line err2] |}))).
  { rewrite (build_cmake _ _ _ _ Hk), cmake_build_unfold. cbn zeta.
    rewrite H1. cbn [succeeded Z.eqb].
    rewrite (run_cmd_unfold host (config_cmd b ++ or_empty opts) w).
    unfold run_cmd_outcome at 1 2. rewrite H1. cbn [Z.eqb snd].
    rewrite run_cmd_unfold. unfold run_cmd_outcome.
    cbn [issued add_printed add_issued]. rewrite H2.
    apply Z.eqb_neq in Hrc. rewrite Hrc.
    cbn [fst snd]. unfold add_printed, add_issued.
    cbn [environ root issued printed]. rewrite <- !app_assoc. reflexivity. }
  cbn zeta. rewrite Heq. repeat split.
Qed.

Lemma cmake_build_step_failure_witness :
  kind msvc_builder <> NDK /\
  2%Z <> 0%Z /\
  fst (build (linux second_fails) None (msvc_builder, bare_world)) =
  Raise (SystemExit 1) /\
  printed (snd (snd (build (linux second_fails) None (msvc_builder, bare_world)))) =
  ["-- Configuring done";
   "命令执行失败: cmake --build /tmp/out";
   "错误输出: ninja: build stopped"].
Proof.
  split; [discriminate|]. split; [discriminate|].
  pose proof (cmake_build_step_failure (linux second_fails) msvc_builder None bare_world
                "-- Configuring done" "" 2%Z "" "ninja: build stopped"
                ltac:(discriminate) eq_refl eq_refl ltac:(discriminate)) as H.
  split; [exact (proj1 H) | exact (proj2 (proj2 (proj2 H)))].
Defined.

(** X11. Calls of [build] with different options do not build up: in
    a row of calls each call composes its commands from the stored command
    lines and its own options only. The commands issued are those of the
    calls in order, up to the command that stopped the row, and all of
    them when no call raised; the instance is unchanged. *)
Theorem build_each_commands host calls b w :
  exists r w' l,
    build_each host calls (b, w) = (r, (b, w')) /\
    issued w' = issued w ++ l /\
    l `prefix_of` concat (map (command_lines b) calls) /\
    (r = Return tt -> l = concat (map (command_lines b) calls)).
Proof.
  revert w. induction calls as [|opts rest IH]; intros w.
  - exists (Return tt), w, []. cbn. rewrite app_nil_r. repeat split; reflexivity.
  - cbn [build_each]. unfold mbind, M_bind.
    destruct (build_step host opts b w) as (r1 & w1 & l1 & -> & Hi1 & Hp1 & Hr1).
    destruct r1 as [[]|e].
    + destruct (IH w1) as (r & w' & l & -> & Hi & Hp & Hr).
      rewrite (Hr1 eq_refl) in *.
      exists r, w', (command_lines b opts ++ l). split; [reflexivity|].
      split; [rewrite Hi, Hi1, app_assoc; reflexivity|].
      cbn [map concat]. split; [apply prefix_app, Hp|].
      intros Hret. rewrite (Hr Hret). reflexivity.
    + exists (Raise e), w1, l1. split; [reflexivity|]. split; [exact Hi1|].
      cbn [map concat]. split; [|discriminate].
      apply prefix_app_r, Hp1.
Qed.

(** *** Cleaning *)

Lemma find_entry_update_other x name f es :
  x <> name -> find_entry x (update_entry name f es) = find_entry x es.
Proof.
  intros Hx. induction es as [|[n c] rest IH]; [reflexivity|].
  cbn [update_entry find_entry].
  destruct (String.eqb n name) eqn:E.
  - apply String.eqb_eq in E as ->.
    assert (Hn : String.eqb name x = false) by (apply String.eqb_neq; congruence).
    rewrite Hn. destruct (f c); cbn [find_entry]; rewrite ?Hn; reflexivity.
  - cbn [find_entry]. rewrite IH. reflexivity.
Qed.

Lemma find_entry_update name f es :
  NoDup es.*1 ->
  find_entry name (update_entry name f es) = find_entry name es ≫= f.
Proof.
  induction es as [|[n c] rest IH]; [reflexivity|].
  cbn. intros Hnd. apply NoDup_cons in Hnd as [Hn Hnd].
  destruct (String.eqb n name) eqn:E.
  - apply String.eqb_eq in E as ->. cbn.
    destruct (f c); cbn; [rewrite String.eqb_refl; reflexivity|].
    apply find_entry_not_listed, Hn.
  - cbn. rewrite E. apply IH, Hnd.
Qed.

Lemma sweep_find x f es :
  NoDup es.*1 ->
  find_entry x (shutil.sweep f es) = find_entry x es ≫= f.
Proof.
  induction es as [|[n c] rest IH]; [reflexivity|].
  cbn. intros Hnd. apply NoDup_cons in Hnd as [Hn Hnd].
  destruct (String.eqb n x) eqn:E.
  - apply String.eqb_eq in E as ->. cbn.
    destruct (f c); cbn; [rewrite String.eqb_refl; reflexivity|].
    rewrite (IH Hnd), (find_entry_not_listed _ _ Hn). reflexivity.
  - destruct (f c); cbn; rewrite ?E; apply IH, Hnd.
Qed.

Lemma discard_dir pw w es n' :
  shutil.discard pw (Dir w es) = Some n' ->
  n' = Dir w (shutil.sweep (shutil.discard w) es).
Proof.
  cbn [shutil.discard]. destruct (pw && _); [discriminate|]. intros [= <-]. reflexivity.
Qed.

(** What is left of a tree after the walk was there before. *)
Lemma discard_shrinks n :
  unique_names n = true ->
  forall pw n' q,
    shutil.discard pw n = Some n' ->
    is_Some (lookup_path n' q) -> is_Some (lookup_path n q).
Proof.
  induction n as [|w es IH] using node_induction; intros Hu pw n' q Hd.
  - destruct pw; [discriminate|]. injection Hd as <-. auto.
  - apply discard_dir in Hd as ->.
    apply unique_names_dir in Hu as [Hnd Hch].
    destruct q as [|x q']; [eauto|].
    cbn [lookup_path]. rewrite (sweep_find _ _ _ Hnd).
    destruct (find_entry x es) as [c|] eqn:Hf; cbn; [|auto].
    destruct (shutil.discard w c) as [c'|] eqn:Hc; [|intros [? [=]]].
    rewrite Forall_forall in IH.
    apply (IH (x, c) (find_entry_elem _ _ _ Hf) (Hch _ _ Hf) w c' q' Hc).
Qed.

Lemma discard_top_shrinks n pw n' q :
  unique_names n = true ->
  shutil.discard_top pw n = Some n' ->
  is_Some (lookup_path n' q) -> is_Some (lookup_path n q).
Proof.
  intros Hu Hd. destruct n as [|w es].
  - injection Hd as <-. auto.
  - apply (discard_shrinks _ Hu pw n' q Hd).
Qed.

Lemma rmtree_at_only_removes ok p :
  forall n q,
    unique_names n = true ->
    is_Some (lookup_path (shutil.rmtree_at ok n p) q) -> is_Some (lookup_path n q).
Proof.
  induction p as [|name rest IH]; intros n q Hu.
  - cbn [shutil.rmtree_at].
    destruct (shutil.discard false n) as [n'|] eqn:Hd; unfold default; cbn; [|auto].
    apply (discard_shrinks _ Hu false n' q Hd).
  - destruct n as [|w es]; [destruct rest; auto|].
    destruct q as [|x q']; [eauto|].
    apply unique_names_dir in Hu as [Hnd Hch].
    destruct (decide (x = name)) as [->|Hx].
    + destruct rest as [|name' rest'].
      * cbn [shutil.rmtree_at lookup_path]. rewrite (find_entry_update _ _ _ Hnd).
        destruct (find_entry name es) as [c|] eqn:Hf; cbn; [|auto].
        destruct (shutil.discard_top (w && ok) c) as [c'|] eqn:Hc; [|intros [? [=]]].
        apply (discard_top_shrinks _ _ _ _ (Hch _ _ Hf) Hc).
      * rewrite rmtree_at_cons by discriminate.
        cbn [lookup_path]. rewrite find_entry_update_some.
        destruct (find_entry name es) as [c|] eqn:Hf; cbn; [|auto].
        apply IH, (Hch _ _ Hf).
    + assert (Hl : forall f, lookup_path (Dir w (update_entry name f es)) (x :: q') =
                              lookup_path (Dir w es) (x :: q')).
      { intros f. cbn [lookup_path]. rewrite find_entry_update_other by exact Hx.
        reflexivity. }
      destruct rest; [cbn [shutil.rmtree_at] | rewrite rmtree_at_cons by discriminate];
        rewrite Hl; auto.
Qed.




(** X13. [clean] only removes: in a tree where no directory lists a
    name twice, whatever path exists after [clean] existed before it. *)
Theorem clean_only_removes host b w s :
  unique_names (root w) = true ->
  fs_exists host (snd (snd (clean host (b, w)))) s = true ->
  fs_exists host w s = true.
Proof.
  intros Hu. rewrite clean_unfold. cbn [snd].
  destruct (truthy (build_dir b)); [|auto].
  unfold fs_exists. cbn [root set_root].
  rewrite !bool_decide_eq_true. apply rmtree_at_only_removes, Hu.
Qed.

Lemma clean_only_removes_witness :
  unique_names (root readonly_world) = true /\
  fs_exists (linux all_succeed)
    (snd (snd (clean (linux all_succeed) (msvc_builder, readonly_world))))
    "/tmp/out/CMakeCache.txt" = true /\
  fs_exists (linux all_succeed) readonly_world "/tmp/out/CMakeCache.txt" = true.
Proof.
  split; [reflexivity|]. split; [reflexivity|].
  apply (clean_only_removes (linux all_succeed) msvc_builder readonly_world
           "/tmp/out/CMakeCache.txt"); reflexivity.
Defined.

Lemma sweep_stable (f : node -> option node) es :
  Forall (fun e => forall c', f (snd e) = Some c' -> f c' = Some c') es ->
  shutil.sweep f (shutil.sweep f es) = shutil.sweep f es.
Proof.
  induction 1 as [|[name c] rest Hc _ IH]; [reflexivity|].
  cbn in *. destruct (f c) as [c'|] eqn:E; [|exact IH].
  cbn. rewrite (Hc c' eq_refl), IH. reflexivity.
Qed.

(** What the walk could not delete, a second walk cannot delete
    either. *)
Lemma discard_stable n :
  forall pw n', shutil.discard pw n = Some n' -> shutil.discard pw n' = Some n'.
Proof.
  induction n as [|w es IH] using node_induction; intros pw n' Hd.
  - destruct pw; [discriminate|]. injection Hd as <-. reflexivity.
  - pose proof Hd as Hd'. apply discard_dir in Hd' as ->.
    cbn [shutil.discard] in *.
    rewrite sweep_stable.
    + destruct (pw && _); [discriminate|reflexivity].
    + eapply Forall_impl; [exact IH|]. intros e He c'. apply He.
Qed.

Lemma discard_top_stable n pw n' :
  shutil.discard_top pw n = Some n' -> shutil.discard_top pw n' = Some n'.
Proof.
  destruct n as [|w es]; [intros [= <-]; reflexivity|].
  intros Hd. cbn [shutil.discard_top] in Hd.
  pose proof (discard_stable _ _ _ Hd) as Hs.
  apply discard_dir in Hd as ->. exact Hs.
Qed.

Lemma update_entry_twice name f es :
  NoDup es.*1 ->
  (forall c c', find_entry name es = Some c -> f c = Some c' -> f c' = Some c') ->
  update_entry name f (update_entry name f es) = update_entry name f es.
Proof.
  intros Hnd Hf.
  destruct (find_entry name es) as [c|] eqn:E.
  - destruct (f c) as [c'|] eqn:Hc.
    + clear Hnd. specialize (Hf c c' eq_refl Hc).
      revert E. induction es as [|[n c0] rest IH]; [discriminate|].
      cbn. destruct (String.eqb n name) eqn:En.
      * intros [= ->]. rewrite Hc. cbn. rewrite En, Hf. reflexivity.
      * intros E. cbn. rewrite En, (IH E). reflexivity.
    + apply update_entry_absent.
      apply (find_entry_update_none _ _ _ c Hnd E Hc).
  - rewrite (update_entry_absent _ f _ E). apply update_entry_absent, E.
Qed.

Lemma rmtree_at_idempotent ok p :
  forall n,
    unique_names n = true ->
    shutil.rmtree_at ok (shutil.rmtree_at ok n p) p = shutil.rmtree_at ok n p.
Proof.
  induction p as [|name rest IH]; intros n Hu.
  - cbn [shutil.rmtree_at].
    destruct (shutil.discard false n) as [n'|] eqn:Hd; unfold default; cbn.
    + rewrite (discard_stable _ _ _ Hd). reflexivity.
    + rewrite Hd. reflexivity.
  - destruct n as [|w es]; [destruct rest; reflexivity|].
    apply unique_names_dir in Hu as [Hnd Hch].
    destruct rest as [|name' rest'].
    + cbn [shutil.rmtree_at]. f_equal.
      apply (update_entry_twice _ _ _ Hnd).
      intros c c' _ Hc. apply (discard_top_stable _ _ _ Hc).
    + rewrite !rmtree_at_cons by discriminate. f_equal.
      apply (update_entry_twice _ _ _ Hnd).
      intros c c' Hf Hc. apply (inj Some) in Hc. subst c'.
      rewrite (IH c (Hch _ _ Hf)). reflexivity.
Qed.

(** X14. [clean] twice is [clean] once: in a tree where no directory
    lists a name twice, a second call right after the first changes
    nothing more and returns as well. *)
Theorem clean_twice host b w :
  unique_names (root w) = true ->
  (clean host;; clean host) (b, w) = clean host (b, w).
Proof.
  intros Hu. unfold mbind, M_bind. rewrite !clean_unfold.
  destruct (truthy (build_dir b)); [|reflexivity].
  unfold set_root. cbn [environ root issued printed build_dir].
  rewrite (rmtree_at_idempotent _ _ _ Hu). reflexivity.
Qed.

Lemma clean_twice_witness :
  unique_names (root writable_world) = true /\
  (clean (linux all_succeed);; clean (linux all_succeed)) (msvc_builder, writable_world) =
  (Return tt, (msvc_builder, set_root (Dir true [("tmp", Dir true [])]) writable_world)).
Proof.
  split; [reflexivity|].
  rewrite (clean_twice (linux all_succeed) msvc_builder writable_world eq_refl).
  reflexivity.
Defined.
